(** * ResilientDB Ansible MCP server: dispatch and orchestration engine

    A shallow embedding of [resilientdb_mcp.py] (class [ResilientDBMCP]):
    the tool catalog, the dispatcher [call_tool], and the sixteen handlers.

    Conventions of the embedding.
    - A Python [str] is a Rocq [string].  The character-class functions
      ([strip], [lower], [isdigit]) follow Python on the ASCII range;
      bytes above 127 are left alone by them.
    - Everything the handlers ask of the operating system, of child
      processes or of the network is an [Event]; a handler is a tree that
      issues events and continues with the answer.  [exec] runs a tree
      against an oracle that answers every event.
    - The process-wide flag [self.initialized] is threaded explicitly and
      survives an exception, as the attribute of a Python object does.
    - The functions of the YAML and JSON libraries and the home directory
      are taken as parameters ([PyLib]). *)

From Stdlib Require Import Ascii.
From stdpp Require Import gmap strings list fin_maps pretty.

Local Open Scope Z_scope.
#[local] Set Warnings "-register-all".
#[local] Set Default Proof Using "Type".

(** ** Text *)

Module Text.

(** [str.isspace] on one character of the ASCII range. *)
Definition is_space (c : ascii) : bool :=
  let n := N_of_ascii c in
  ((9 <=? n) && (n <=? 13) || (28 <=? n) && (n <=? 32))%N.

Definition is_digit (c : ascii) : bool :=
  let n := N_of_ascii c in ((48 <=? n) && (n <=? 57))%N.

Definition lower_char (c : ascii) : ascii :=
  let n := N_of_ascii c in
  if ((65 <=? n) && (n <=? 90))%N then ascii_of_N (n + 32) else c.

Fixpoint all_chars (p : ascii → bool) (s : string) : bool :=
  match s with
  | EmptyString => true
  | String c s' => p c && all_chars p s'
  end.

Fixpoint map_chars (f : ascii → ascii) (s : string) : string :=
  match s with
  | EmptyString => EmptyString
  | String c s' => String (f c) (map_chars f s')
  end.

(** [s.lower()] *)
Definition lower (s : string) : string := map_chars lower_char s.

(** [s.isdigit()]: at least one character, and all of them digits. *)
Definition isdigit (s : string) : bool :=
  match s with
  | EmptyString => false
  | _ => all_chars is_digit s
  end.

Definition digit_val (c : ascii) : Z := Z.of_N (N_of_ascii c) - 48.

Fixpoint int_go (acc : Z) (s : string) : Z :=
  match s with
  | EmptyString => acc
  | String c s' => int_go (10 * acc + digit_val c) s'
  end.

(** [int(s)] for a string of decimal digits. *)
Definition int_of_digits (s : string) : Z := int_go 0 s.

Fixpoint lstrip (s : string) : string :=
  match s with
  | EmptyString => EmptyString
  | String c s' => if is_space c then lstrip s' else s
  end.

(** [s.strip()] *)
Definition strip (s : string) : string :=
  String.rev (lstrip (String.rev (lstrip s))).

(** [sub in s] *)
Fixpoint contains (sub s : string) : bool :=
  String.prefix sub s ||
  match s with
  | EmptyString => false
  | String _ s' => contains sub s'
  end.

(** [s.split(sep)] for a one-character separator. *)
Fixpoint split (sep : ascii) (s : string) : list string :=
  match s with
  | EmptyString => [EmptyString]
  | String c s' =>
      if Ascii.eqb c sep then EmptyString :: split sep s'
      else match split sep s' with
           | [] => [String c EmptyString]
           | w :: ws => String c w :: ws
           end
  end.

(** [sep.join(l)] *)
Definition join (sep : string) (l : list string) : string :=
  String.concat sep l.

(** [s[-n:]] for n > 0 *)
Definition last_chars (n : nat) (s : string) : string :=
  String.substring (String.length s - n) n s.

(** [s[:n]] *)
Definition first_chars (n : nat) (s : string) : string :=
  String.substring 0 n s.

(** [l[-n:]] for n > 0 *)
Definition last_items {A} (n : nat) (l : list A) : list A :=
  drop (length l - n) l.

Definition nl : string := String (ascii_of_N 10) EmptyString.

Definition lines (s : string) : list string := split (ascii_of_N 10) s.

End Text.

(** ** Values, exceptions, events *)

(** A JSON or YAML value as Python holds it after parsing (floats are not
    represented).  Tool arguments and the configuration document are
    dictionaries keyed by strings. *)
Inductive Value : Type :=
| VNone
| VBool (b : bool)
| VInt (n : Z)
| VStr (s : string)
| VList (l : list Value)
| VDict (d : gmap string Value).

(** [bool(v)] *)
Definition truthy (v : Value) : bool :=
  match v with
  | VNone => false
  | VBool b => b
  | VInt n => negb (n =? 0)
  | VStr s => negb (String.eqb s "")
  | VList l => negb (bool_decide (length l = 0%nat))
  | VDict d => negb (bool_decide (size d = 0%nat))
  end.

(** [type(v).__name__] *)
Definition type_name (v : Value) : string :=
  match v with
  | VNone => "NoneType"
  | VBool _ => "bool"
  | VInt _ => "int"
  | VStr _ => "str"
  | VList _ => "list"
  | VDict _ => "dict"
  end.

(** The exception classes the code distinguishes; every one of them is a
    subclass of [Exception].  [OtherException] stands for any other class
    (PermissionError, ValueError, aiohttp.ClientError, ...). *)
Inductive ExnClass : Type :=
| KeyError
| AttributeError
| TypeError
| FileNotFoundError
| TimeoutExpired
| OtherException.

(** An exception: its class and [str(e)]. *)
Record Exn : Type := mk_exn { exn_class : ExnClass; exn_msg : string }.

(** [subprocess.CompletedProcess] *)
Record Completed : Type := mk_completed {
  returncode : Z;
  stdout : string;
  stderr : string
}.

(** An aiohttp response: its status, and what [await response.text()] and
    [await response.json()] give. *)
Record Response : Type := mk_response {
  status : Z;
  resp_text : Exn + string;
  resp_json : Exn + Value
}.

(** What a handler asks of its environment.  [Run cmd cwd timeout] is
    [subprocess.run(cmd, capture_output=True, cwd=cwd, timeout=timeout)]. *)
Inductive Event : Type :=
| Mkdir (path : string)
| PathExists (path : string)
| Rmtree (path : string)
| Which (cmd : string)
| Chmod (path : string) (mode : Z)
| Run (cmd : list string) (cwd : option string) (timeout : option Z)
| ReadFile (path : string)
| WriteFile (path : string) (content : string)
| HttpPost (url : string) (payload : Value)
| HttpGet (url : string).

(** The type of the answer to each event; [inl e] is the call raising [e]. *)
Definition answer (ev : Event) : Type :=
  match ev with
  | Mkdir _ | Rmtree _ | Chmod _ _ | WriteFile _ _ => (Exn + unit)%type
  | PathExists _ => (Exn + bool)%type
  | Which _ => bool
  | Run _ _ _ => (Exn + Completed)%type
  | ReadFile _ => (Exn + string)%type
  | HttpPost _ _ | HttpGet _ => (Exn + Response)%type
  end.

(** ** Programs *)

(** An interaction tree of finite depth: a result, or an event and the
    continuation on its answer. *)
Inductive Prog (A : Type) : Type :=
| Done (a : A)
| Vis (ev : Event) (k : answer ev → Prog A).
Arguments Done {A} a.
Arguments Vis {A} ev k.

Fixpoint pbind {A B} (p : Prog A) (f : A → Prog B) : Prog B :=
  match p with
  | Done a => f a
  | Vis ev k => Vis ev (λ x, pbind (k x) f)
  end.

(** The lifecycle state: [self.initialized]. *)
Record State : Type := mk_state { initialized : bool }.

(** How a Python call ends. *)
Inductive Res (A : Type) : Type :=
| Returned (a : A)
| Raised (e : Exn).
Arguments Returned {A} a.
Arguments Raised {A} e.

(** A handler: reads and writes the state, issues events, returns or
    raises. *)
Definition M (A : Type) : Type := State → Prog (Res A * State).

Definition ret {A} (a : A) : M A := λ st, Done (Returned a, st).
Definition raise_ {A} (e : Exn) : M A := λ st, Done (Raised e, st).

Definition bind {A B} (m : M A) (f : A → M B) : M B :=
  λ st, pbind (m st) (λ r,
    match r.1 with
    | Returned a => f a r.2
    | Raised e => Done (Raised e, r.2)
    end).

(** [try: body / except ...: handler e]; a handler that does not match
    re-raises. *)
Definition try_except {A} (body : M A) (handler : Exn → M A) : M A :=
  λ st, pbind (body st) (λ r,
    match r.1 with
    | Returned a => Done (Returned a, r.2)
    | Raised e => handler e r.2
    end).

Notation "'let!' x ':=' m 'in' k" := (bind m (λ x, k))
  (at level 10, x name, m at level 100, k at level 200).

Definition get_initialized : M bool := λ st, Done (Returned (initialized st), st).
Definition set_initialized (b : bool) : M unit := λ _, Done (Returned tt, mk_state b).

Definition of_sum {A} (x : Exn + A) : M A :=
  match x with
  | inl e => raise_ e
  | inr a => ret a
  end.

(** [shutil.which(c)], tested for truth; it does not raise. *)
Definition which (c : string) : M bool :=
  λ st, Vis (Which c) (λ x, Done (Returned x, st)).

(** [Path.exists()]; up to Python 3.12 it raises on errors such as a
    directory that may not be searched. *)
Definition path_exists (p : string) : M bool :=
  λ st, Vis (PathExists p) (λ x, of_sum x st).

Definition mkdir (p : string) : M unit := λ st, Vis (Mkdir p) (λ x, of_sum x st).
Definition rmtree (p : string) : M unit := λ st, Vis (Rmtree p) (λ x, of_sum x st).
Definition chmod (p : string) (mode : Z) : M unit :=
  λ st, Vis (Chmod p mode) (λ x, of_sum x st).
Definition subprocess_run (cmd : list string) (cwd : option string)
    (timeout : option Z) : M Completed :=
  λ st, Vis (Run cmd cwd timeout) (λ x, of_sum x st).
Definition read_file (p : string) : M string :=
  λ st, Vis (ReadFile p) (λ x, of_sum x st).
Definition write_file (p content : string) : M unit :=
  λ st, Vis (WriteFile p content) (λ x, of_sum x st).
Definition http_post (url : string) (payload : Value) : M Response :=
  λ st, Vis (HttpPost url payload) (λ x, of_sum x st).
Definition http_get (url : string) : M Response :=
  λ st, Vis (HttpGet url) (λ x, of_sum x st).

(** ** Running a program *)

(** The environment: it answers an event knowing the events issued so far. *)
Definition Oracle : Type := ∀ (history : list Event) (ev : Event), answer ev.

(** [exec o h p] runs [p] after the events [h]; it gives all the events
    issued, in order, and the result. *)
Fixpoint exec {A} (o : Oracle) (h : list Event) (p : Prog A) : list Event * A :=
  match p with
  | Done a => (h, a)
  | Vis ev k => exec o (h ++ [ev]) (k (o h ev))
  end.

Definition run {A} (o : Oracle) (m : M A) (st : State) : list Event * (Res A * State) :=
  exec o [] (m st).

Definition trace {A} (x : list Event * (Res A * State)) : list Event := x.1.
Definition outcome {A} (x : list Event * (Res A * State)) : Res A := x.2.1.
Definition final {A} (x : list Event * (Res A * State)) : State := x.2.2.

(** ** Library functions and configuration *)

(** What the code takes from the Python runtime and its libraries:
    [str(Path.home())], [yaml.safe_load] on the text of a file,
    [yaml.dump(_, default_flow_style=False)] and [json.dumps(_, indent=2)]. *)
Class PyLib : Type := {
  home : string;
  yaml_safe_load : string → Exn + Value;
  yaml_dump : Value → string;
  json_dumps : Value → string
}.

Import Text.

Section Server.
Context {lib : PyLib}.

(** [a / b] on paths, read back with [str()]. *)
Definition path_join (a b : string) : string :=
  if String.eqb (last_chars 1 a) "/" then a +:+ b else a +:+ "/" +:+ b.

Definition REPO_URL : string := "https://github.com/apache/incubator-resilientdb-ansible.git".
Definition WORK_DIR : string := path_join home ".resilientdb-mcp".
Definition ANSIBLE_DIR : string := path_join WORK_DIR "incubator-resilientdb-ansible".
Definition INVENTORY_FILE : string := path_join ANSIBLE_DIR "inventories/production/hosts".
Definition PLAYBOOK_FILE : string := path_join ANSIBLE_DIR "site.yml".

Definition CROW_BASE_URL : string := "http://localhost:18000".
Definition GRAPHQL_URL : string := "http://localhost:8000/graphql".
Definition NGINX_URL : string := "http://localhost".

Definition not_initialized_message : string :=
  "Environment not initialized. Please run 'initialize_environment' first".

(** ** Handlers *)

Definition key_files : list (string * string) :=
  [ ("Playbook", PLAYBOOK_FILE);
    ("Inventory", INVENTORY_FILE);
    ("Dockerfile", path_join ANSIBLE_DIR "dockerfile");
    ("Complete startup script", path_join ANSIBLE_DIR "complete-startup.sh") ].

(** [for name, path in key_files.items(): ...] *)
Fixpoint report_key_files (files : list (string * string)) (results : list string)
    : M (list string) :=
  match files with
  | [] => ret results
  | (name, path) :: rest =>
      let! found := path_exists path in
      report_key_files rest
        (results ++ [if found then name +:+ " found: " +:+ path
                     else name +:+ " missing: " +:+ path])
  end.

(** [inl text] is a [return] from inside the [try] block, [inr results]
    falls through to the key-file report. *)
Definition _initialize_environment (force : bool) : M string :=
  let! _ := mkdir WORK_DIR in
  let! ex := path_exists ANSIBLE_DIR in
  let! r :=
       (if ex && negb force then
          let results := ["Repository already exists at " +:+ ANSIBLE_DIR] in
          let! _ := set_initialized true in
          ret (inr results)
        else
          let! ex2 := path_exists ANSIBLE_DIR in
          let! results := (if ex2 && force then
                        let! _ := rmtree ANSIBLE_DIR in
                        ret ["Removed existing repository"]
                      else ret []) in
          try_except
            (let! result := subprocess_run ["git"; "clone"; REPO_URL; ANSIBLE_DIR] None None in
             if returncode result =? 0 then
               let results := results ++ ["Successfully cloned repository to " +:+ ANSIBLE_DIR] in
               let! _ := set_initialized true in
               ret (inr results)
             else
               ret (inl (join nl (results ++ ["Failed to clone repository: " +:+ stderr result]))))
            (λ e, match exn_class e with
                  | FileNotFoundError =>
                      ret (inl (join nl (results ++
                        ["Error: git is not installed. Please run 'install_dependencies' first"])))
                  | _ => raise_ e
                  end)) in
  match r with
  | inl text => ret text
  | inr results =>
      let! results := report_key_files key_files results in
      ret (join nl results)
  end.

Definition deps : list (string * string) :=
  [ ("git", "Version control for cloning repositories");
    ("ansible", "Configuration management tool");
    ("ansible-playbook", "Ansible playbook executor");
    ("python3", "Python interpreter");
    ("pip", "Python package manager");
    ("docker", "Container runtime (optional)");
    ("netstat", "Network diagnostics (optional)") ].

Definition critical_deps : list string :=
  ["git"; "ansible"; "ansible-playbook"; "python3"].

(** [for cmd, description in deps.items(): ...] with the two accumulators. *)
Fixpoint check_deps_loop (ds : list (string * string)) (results missing : list string)
    : M (list string * list string) :=
  match ds with
  | [] => ret (results, missing)
  | (cmd, description) :: rest =>
      let! found := which cmd in
      if found then
        let! line := try_except
                  (let version_cmd :=
                     if bool_decide (cmd ≠ "netstat") then [cmd; "--version"]
                     else ["echo"; "installed"] in
                   let! version_result := subprocess_run version_cmd None (Some 5) in
                   let version := strip (hd "" (lines (stdout version_result))) in
                   ret (cmd +:+ ": " +:+ version))
                  (λ _, ret (cmd +:+ ": installed")) in
        check_deps_loop rest (results ++ [line]) missing
      else
        check_deps_loop rest
          (results ++ [cmd +:+ ": NOT FOUND - " +:+ description])
          (if bool_decide (cmd ∈ critical_deps) then missing ++ [cmd] else missing)
  end.

Definition _check_dependencies : M string :=
  let! rm := check_deps_loop deps [] [] in
  let results := rm.1 in
  let missing := rm.2 in
  let results :=
    match missing with
    | _ :: _ =>
        results ++
        [nl +:+ "Missing critical dependencies: " +:+ join ", " missing;
         "Run 'install_dependencies' to attempt automatic installation"]
    | [] => results ++ [nl +:+ "All critical dependencies are installed!"]
    end in
  ret (join nl results).

Definition _install_dependencies (use_sudo : bool) : M string :=
  ret "".

Definition summary_header : string := nl +:+ "=== DEPLOYMENT SUMMARY ===".

(** [bool(line.strip())] *)
Definition nonblank (line : string) : bool := negb (String.eqb (strip line) "").

(** One iteration of the loop over [output_lines]; the accumulator is
    [(recap_started, summary)]. *)
Definition recap_step (acc : bool * list string) (line : string) : bool * list string :=
  if contains "PLAY RECAP" line then (true, acc.2 ++ [summary_header])
  else if acc.1 && nonblank line then (acc.1, acc.2 ++ [line])
  else acc.

Definition recap_summary (output_lines : list string) : list string :=
  (fold_left recap_step output_lines (false, [])).2.

Definition _run_playbook (tags limit : string) (check : bool) : M string :=
  let! init := get_initialized in
  if negb init then ret not_initialized_message else
  let! found := path_exists PLAYBOOK_FILE in
  if negb found then ret ("Playbook not found at " +:+ PLAYBOOK_FILE) else
  let cmd := ["ansible-playbook"; PLAYBOOK_FILE; "-i"; INVENTORY_FILE; "--tags"; tags] in
  let cmd := if bool_decide (limit ≠ "all") then cmd ++ ["--limit"; limit] else cmd in
  let cmd := if check then cmd ++ ["--check"] else cmd in
  try_except
    (let! result := subprocess_run cmd (Some ANSIBLE_DIR) None in
     let output_lines := lines (stdout result) in
     let summary := recap_summary output_lines in
     if returncode result =? 0 then
       ret ("Playbook executed successfully!" +:+ nl +:+ join nl (last_items 10 summary))
     else
       let error_info :=
         if negb (String.eqb (stderr result) "") then last_chars 500 (stderr result)
         else last_chars 500 (stdout result) in
       ret ("Playbook failed:" +:+ nl +:+ error_info +:+ nl +:+ join nl summary))
    (λ e, match exn_class e with
          | FileNotFoundError =>
              ret "Error: ansible-playbook not found. Please run 'install_dependencies' first"
          | _ => ret ("Error running playbook: " +:+ exn_msg e)
          end).

Definition _quick_deploy : M string :=
  let! init := get_initialized in
  if negb init then ret not_initialized_message else
  let startup_script := path_join ANSIBLE_DIR "complete-startup.sh" in
  let! found := path_exists startup_script in
  if negb found then ret ("Startup script not found at " +:+ startup_script) else
  try_except
    (let! _ := chmod startup_script 493 in
     let! result := subprocess_run ["bash"; startup_script] (Some ANSIBLE_DIR) (Some 300) in
     let output := last_chars 2000 (stdout result) in
     if contains "All services started" output then
       ret ("Quick deployment completed successfully!" +:+ nl +:+ output)
     else
       ret ("Quick deployment output:" +:+ nl +:+ output))
    (λ e, match exn_class e with
          | TimeoutExpired =>
              ret "Deployment timed out after 5 minutes. Services may still be starting."
          | _ => ret ("Error during quick deployment: " +:+ exn_msg e)
          end).

Definition _docker_build (tag : string) : M string :=
  let! init := get_initialized in
  if negb init then ret not_initialized_message else
  let dockerfile := path_join ANSIBLE_DIR "dockerfile" in
  let! found := path_exists dockerfile in
  if negb found then ret ("Dockerfile not found at " +:+ dockerfile) else
  try_except
    (let cmd := ["docker"; "build"; "-t"; tag; ANSIBLE_DIR] in
     let! result := subprocess_run cmd None None in
     if returncode result =? 0 then
       ret ("Docker image built successfully: " +:+ tag)
     else
       ret ("Docker build failed:" +:+ nl +:+ last_chars 1000 (stderr result)))
    (λ e, match exn_class e with
          | FileNotFoundError => ret "Docker is not installed. Please install Docker first."
          | _ => ret ("Error building Docker image: " +:+ exn_msg e)
          end).

Definition _docker_run (tag : string) (detach : bool) : M string :=
  try_except
    (let cmd :=
       ["docker"; "run"; "--privileged";
        "-v"; "/sys/fs/cgroup:/sys/fs/cgroup:ro";
        "-v"; "/tmp:/tmp";
        "-v"; "/run:/run";
        "-p"; "80:80";
        "-p"; "18000:18000";
        "-p"; "8000:8000";
        "--name"; "resilientdb-container"] in
     let cmd := if detach then cmd ++ ["-d"] else cmd in
     let cmd := cmd ++ [tag] in
     let! result := subprocess_run cmd None None in
     if returncode result =? 0 then
       let container_id := first_chars 12 (strip (stdout result)) in
       ret ("Container started successfully: " +:+ container_id +:+ nl +:+
            "Access services at:" +:+ nl +:+
            "- Nginx: http://localhost" +:+ nl +:+
            "- GraphQL: http://localhost:8000/graphql" +:+ nl +:+
            "- Crow API: http://localhost:18000")
     else if contains "already in use" (stderr result) then
       ret ("Container name already in use. Stop existing container first:" +:+ nl +:+
            "docker stop resilientdb-container && docker rm resilientdb-container")
     else
       ret ("Failed to start container:" +:+ nl +:+ last_chars 500 (stderr result)))
    (λ e, match exn_class e with
          | FileNotFoundError => ret "Docker is not installed. Please install Docker first."
          | _ => ret ("Error running container: " +:+ exn_msg e)
          end).

Definition services : list string :=
  ["nginx"; "crow-http"; "graphql"; "resilientdb-client";
   "resilientdb-kv@1"; "resilientdb-kv@2"; "resilientdb-kv@3"; "resilientdb-kv@4"].

Fixpoint check_services_loop (svcs : list string) (status_info : list string)
    : M (list string) :=
  match svcs with
  | [] => ret status_info
  | service :: rest =>
      let! line :=
        try_except
          (let! result := subprocess_run ["systemctl"; "is-active"; service] None None in
           let status := strip (stdout result) in
           let emoji := if String.eqb status "active" then "✓" else "✗" in
           ret (emoji +:+ " " +:+ service +:+ ": " +:+ status))
          (λ _, ret ("? " +:+ service +:+ ": error checking")) in
      check_services_loop rest (status_info ++ [line])
  end.

Definition _check_services : M string :=
  let! status_info := check_services_loop services [] in
  ret ("Service Status:" +:+ nl +:+ join nl status_info).

Fixpoint restart_all_loop (svcs : list string) (results : list string)
    : M (list string) :=
  match svcs with
  | [] => ret results
  | svc :: rest =>
      let! line :=
        try_except
          (let! _ := subprocess_run ["systemctl"; "restart"; svc] None None in
           ret ("Restarted " +:+ svc))
          (λ _, ret ("Failed to restart " +:+ svc)) in
      restart_all_loop rest (results ++ [line])
  end.

Definition _restart_service (service : string) : M string :=
  if bool_decide (service = "all") then
    let! results := restart_all_loop services [] in
    ret (join nl results)
  else
    try_except
      (let! result := subprocess_run ["systemctl"; "restart"; service] None None in
       if returncode result =? 0 then
         ret ("Service " +:+ service +:+ " restarted successfully")
       else
         ret ("Error restarting " +:+ service +:+ ": " +:+ stderr result))
      (λ e, ret ("Error restarting service: " +:+ exn_msg e)).

Definition _view_logs (service : string) (n_lines : Z) : M string :=
  try_except
    (let! result :=
       subprocess_run ["journalctl"; "-u"; service; "-n"; pretty n_lines; "--no-pager"]
         None None in
     if returncode result =? 0 then
       ret ("=== Last " +:+ pretty n_lines +:+ " lines of " +:+ service +:+ " logs ===" +:+ nl +:+
            stdout result)
     else
       ret ("Error fetching logs: " +:+ stderr result))
    (λ e, ret ("Error viewing logs: " +:+ exn_msg e)).

Definition _commit_transaction (transaction_id value : string) : M string :=
  let url := CROW_BASE_URL +:+ "/v1/transactions/commit" in
  let payload := VDict {[ "id" := VStr transaction_id; "value" := VStr value ]} in
  try_except
    (let! response := http_post url payload in
     let! result := of_sum (resp_text response) in
     ret ("Transaction committed (status " +:+ pretty (status response) +:+ "):" +:+ nl +:+ result))
    (λ e, ret ("Error committing transaction: " +:+ exn_msg e)).

Definition _get_transaction (transaction_id : string) : M string :=
  let url := CROW_BASE_URL +:+ "/v1/transactions/" +:+ transaction_id in
  try_except
    (let! response := http_get url in
     let! result := of_sum (resp_text response) in
     ret ("Transaction data (status " +:+ pretty (status response) +:+ "):" +:+ nl +:+ result))
    (λ e, ret ("Error fetching transaction: " +:+ exn_msg e)).

Definition _graphql_query (query : string) (variables : Value) : M string :=
  let payload := VDict {[ "query" := VStr query; "variables" := variables ]} in
  try_except
    (let! response := http_post GRAPHQL_URL payload in
     let! result := of_sum (resp_json response) in
     ret ("GraphQL Response:" +:+ nl +:+ json_dumps result))
    (λ e, ret ("Error executing GraphQL query: " +:+ exn_msg e)).

Definition relevant_ports : list string :=
  ["80"; "8000"; "18000"; "10001"; "10002"; "10003"; "10004"; "10005"].

Definition _check_ports : M string :=
  try_except
    (let! result := subprocess_run ["netstat"; "-tlnp"] None None in
     let filtered :=
       List.filter (λ line, existsb (λ port, contains (":" +:+ port) line) relevant_ports)
         (lines (stdout result)) in
     match filtered with
     | _ :: _ => ret ("Listening ports:" +:+ nl +:+ join nl filtered)
     | [] => ret "No ResilientDB-related ports found listening"
     end)
    (λ e, match exn_class e with
          | FileNotFoundError =>
              try_except
                (let! result := subprocess_run ["ss"; "-tlnp"] None None in
                 ret ("Listening sockets:" +:+ nl +:+ stdout result))
                (λ _, ret "Neither netstat nor ss available for port checking")
          | _ => ret ("Error checking ports: " +:+ exn_msg e)
          end).

Definition config_file : string :=
  path_join ANSIBLE_DIR "inventories/production/group_vars/all.yml".

Definition always_included : list string :=
  ["components"; "bazel_version"; "java_home_map"].

(** [config.keys()]; on anything but a dictionary the attribute is missing. *)
Definition dict_keys (config : Value) : M (list string) :=
  match config with
  | VDict d => ret ((map_to_list d).*1)
  | _ => raise_ (mk_exn AttributeError
           ("'" +:+ type_name config +:+ "' object has no attribute 'keys'"))
  end.

(** [config[k]] *)
Definition dict_item (config : Value) (k : string) : option Value :=
  match config with
  | VDict d => d !! k
  | _ => None
  end.

(** The test of the loop over [config.keys()]. *)
Definition is_relevant (component key : string) : bool :=
  contains (lower component) (lower key) || bool_decide (key ∈ always_included).

(** [{k: config[k] for k in relevant_keys if k in config}] *)
Definition dict_comprehension (config : Value) (relevant_keys : list string)
    : gmap string Value :=
  foldl (λ acc k, match dict_item config k with
                  | Some v => <[k := v]> acc
                  | None => acc
                  end) ∅ relevant_keys.

Definition _view_config (component : string) : M string :=
  let! init := get_initialized in
  if negb init then ret not_initialized_message else
  let! found := path_exists config_file in
  if negb found then ret ("Configuration file not found at " +:+ config_file) else
  try_except
    (let! content := read_file config_file in
     let! config := of_sum (yaml_safe_load content) in
     if bool_decide (component = "all") then
       ret ("Full configuration:" +:+ nl +:+ yaml_dump config)
     else
       let! keys := dict_keys config in
       let relevant_keys := List.filter (is_relevant component) keys in
       let filtered_config := dict_comprehension config relevant_keys in
       if negb (bool_decide (size filtered_config = 0%nat)) then
         ret ("Configuration for " +:+ component +:+ ":" +:+ nl +:+
              yaml_dump (VDict filtered_config))
       else
         ret ("No configuration found for component: " +:+ component))
    (λ e, ret ("Error reading configuration: " +:+ exn_msg e)).

(** The value [update_config] stores: an [int], a [bool] or the [str]. *)
Inductive Scalar : Type :=
| SInt (n : Z)
| SBool (b : bool)
| SStr (s : string).

Definition scalar_value (x : Scalar) : Value :=
  match x with
  | SInt n => VInt n
  | SBool b => VBool b
  | SStr s => VStr s
  end.

(** [str(x)], as the f-string formats it. *)
Definition scalar_str (x : Scalar) : string :=
  match x with
  | SInt n => pretty n
  | SBool b => if b then "True" else "False"
  | SStr s => s
  end.

(** "Convert value to appropriate type" *)
Definition convert_value (value : string) : Scalar :=
  if isdigit value then SInt (int_of_digits value)
  else if bool_decide (lower value ∈ ["true"; "false"]) then
    SBool (String.eqb (lower value) "true")
  else SStr value.

(** [config[key] = value] *)
Definition dict_setitem (config : Value) (key : string) (value : Value) : M Value :=
  match config with
  | VDict d => ret (VDict (<[key := value]> d))
  | VList _ => raise_ (mk_exn TypeError "list indices must be integers or slices, not str")
  | _ => raise_ (mk_exn TypeError
           ("'" +:+ type_name config +:+ "' object does not support item assignment"))
  end.

Definition _update_config (key value : string) : M string :=
  let! init := get_initialized in
  if negb init then ret not_initialized_message else
  try_except
    (let! content := read_file config_file in
     let! config := of_sum (yaml_safe_load content) in
     let value := convert_value value in
     let! config := dict_setitem config key (scalar_value value) in
     let! _ := write_file config_file (yaml_dump config) in
     ret ("Updated " +:+ key +:+ " = " +:+ scalar_str value +:+ " in configuration"))
    (λ e, ret ("Error updating configuration: " +:+ exn_msg e)).

(** ** Tool catalog *)

Inductive JsonType : Type := TBoolean | TString | TInteger | TObject.

Record Property : Type := mk_property {
  prop_name : string;
  prop_type : JsonType;
  prop_description : string;
  prop_default : option Value;
  prop_enum : option (list string)
}.

Record Tool : Type := mk_tool {
  name : string;
  description : string;
  properties : list Property;
  required : list string
}.

Definition kv_services : list string :=
  ["resilientdb-kv@1"; "resilientdb-kv@2"; "resilientdb-kv@3"; "resilientdb-kv@4";
   "resilientdb-client"; "crow-http"; "graphql"; "nginx"].

Definition list_tools : list Tool :=
  [ mk_tool "initialize_environment"
      "Initialize the ResilientDB environment by cloning the repository and checking dependencies"
      [mk_property "force" TBoolean "Force re-initialization even if already set up"
         (Some (VBool false)) None]
      [];
    mk_tool "check_dependencies"
      "Check if all required dependencies (ansible, git, python, etc.) are installed"
      [] [];
    mk_tool "install_dependencies"
      "Attempt to install missing dependencies (requires appropriate permissions)"
      [mk_property "use_sudo" TBoolean "Use sudo for installation" (Some (VBool true)) None]
      [];
    mk_tool "run_playbook"
      "Run the Ansible playbook to deploy ResilientDB"
      [mk_property "tags" TString
         "Comma-separated tags (e.g., 'resilientdb,nginx'). Options: all, common, resilientdb, crow, graphql, nginx"
         (Some (VStr "all")) None;
       mk_property "limit" TString "Limit to specific hosts" (Some (VStr "all")) None;
       mk_property "check" TBoolean "Run in check mode (dry run)" (Some (VBool false)) None]
      [];
    mk_tool "quick_deploy"
      "Quick deployment using the complete-startup.sh script for all services"
      [] [];
    mk_tool "docker_build"
      "Build the Docker image for containerized deployment"
      [mk_property "tag" TString "Docker image tag"
         (Some (VStr "resilientdb-ansible:latest")) None]
      [];
    mk_tool "docker_run"
      "Run the ResilientDB container"
      [mk_property "tag" TString "Docker image tag to run"
         (Some (VStr "resilientdb-ansible:latest")) None;
       mk_property "detach" TBoolean "Run container in background" (Some (VBool true)) None]
      [];
    mk_tool "check_services"
      "Check the status of all ResilientDB services"
      [] [];
    mk_tool "restart_service"
      "Restart a specific service"
      [mk_property "service" TString "Service to restart (or 'all' for all services)"
         None (Some (kv_services ++ ["all"]))]
      ["service"];
    mk_tool "view_logs"
      "View logs for a specific service"
      [mk_property "service" TString "Service name to view logs for" None (Some kv_services);
       mk_property "lines" TInteger "Number of log lines to retrieve" (Some (VInt 50)) None]
      ["service"];
    mk_tool "commit_transaction"
      "Commit a transaction via the Crow HTTP API"
      [mk_property "transaction_id" TString "Transaction ID" None None;
       mk_property "value" TString "Transaction value/data" None None]
      ["transaction_id"; "value"];
    mk_tool "get_transaction"
      "Get a transaction by ID"
      [mk_property "transaction_id" TString "Transaction ID to retrieve" None None]
      ["transaction_id"];
    mk_tool "graphql_query"
      "Execute a GraphQL query"
      [mk_property "query" TString "GraphQL query string" None None;
       mk_property "variables" TObject "Optional GraphQL variables" (Some (VDict ∅)) None]
      ["query"];
    mk_tool "check_ports"
      "Check which ports are listening"
      [] [];
    mk_tool "view_config"
      "View configuration for a specific component"
      [mk_property "component" TString "Component configuration to view" None
         (Some ["resilientdb"; "crow"; "graphql"; "nginx"; "all"])]
      ["component"];
    mk_tool "update_config"
      "Update configuration values in the Ansible inventory"
      [mk_property "key" TString
         "Configuration key to update (e.g., 'crow_port', 'bazel_jobs')" None None;
       mk_property "value" TString "New value for the configuration key" None None]
      ["key"; "value"] ].

Definition tool_names : list string := name <$> list_tools.

(** ** Dispatcher *)

Record TextContent : Type := mk_text_content { type : string; text : string }.

(** The handlers are typed by their annotations ([str], [bool], [int]); the
    dispatcher hands them what it finds in [arguments].  A parameter that
    is only tested for truth takes the truth value of whatever was sent.
    A string or integer parameter sent with another JSON type is outside
    the embedding: the extraction ends in [ill_typed], and the statements
    that depend on it assume [conforms]. *)
Definition ill_typed {A} (k : string) : M A :=
  raise_ (mk_exn TypeError ("argument " +:+ k +:+ " does not have its declared type")).

(** [arguments.get(k, d)] for a parameter used as a truth value *)
Definition get_bool (arguments : gmap string Value) (k : string) (d : bool) : bool :=
  match arguments !! k with
  | Some v => truthy v
  | None => d
  end.

(** [arguments.get(k, d)] for a [str] parameter *)
Definition get_str (arguments : gmap string Value) (k d : string) : M string :=
  match arguments !! k with
  | Some (VStr s) => ret s
  | Some _ => ill_typed k
  | None => ret d
  end.

(** [arguments.get(k, d)] for an [int] parameter *)
Definition get_int (arguments : gmap string Value) (k : string) (d : Z) : M Z :=
  match arguments !! k with
  | Some (VInt n) => ret n
  | Some _ => ill_typed k
  | None => ret d
  end.

(** [arguments[k]] for a [str] parameter: [KeyError(k)] when absent. *)
Definition item_str (arguments : gmap string Value) (k : string) : M string :=
  match arguments !! k with
  | Some (VStr s) => ret s
  | Some _ => ill_typed k
  | None => raise_ (mk_exn KeyError ("'" +:+ k +:+ "'"))
  end.

Definition call_tool (name : string) (arguments : gmap string Value)
    : M (list TextContent) :=
  let! result :=
    if bool_decide (name = "initialize_environment") then
      _initialize_environment (get_bool arguments "force" false)
    else if bool_decide (name = "check_dependencies") then
      _check_dependencies
    else if bool_decide (name = "install_dependencies") then
      _install_dependencies (get_bool arguments "use_sudo" true)
    else if bool_decide (name = "run_playbook") then
      let! tags := get_str arguments "tags" "all" in
      let! limit := get_str arguments "limit" "all" in
      _run_playbook tags limit (get_bool arguments "check" false)
    else if bool_decide (name = "quick_deploy") then
      _quick_deploy
    else if bool_decide (name = "docker_build") then
      let! tag := get_str arguments "tag" "resilientdb-ansible:latest" in
      _docker_build tag
    else if bool_decide (name = "docker_run") then
      let! tag := get_str arguments "tag" "resilientdb-ansible:latest" in
      _docker_run tag (get_bool arguments "detach" true)
    else if bool_decide (name = "check_services") then
      _check_services
    else if bool_decide (name = "restart_service") then
      let! service := item_str arguments "service" in
      _restart_service service
    else if bool_decide (name = "view_logs") then
      let! service := item_str arguments "service" in
      let! n_lines := get_int arguments "lines" 50 in
      _view_logs service n_lines
    else if bool_decide (name = "commit_transaction") then
      let! transaction_id := item_str arguments "transaction_id" in
      let! value := item_str arguments "value" in
      _commit_transaction transaction_id value
    else if bool_decide (name = "get_transaction") then
      let! transaction_id := item_str arguments "transaction_id" in
      _get_transaction transaction_id
    else if bool_decide (name = "graphql_query") then
      let! query := item_str arguments "query" in
      _graphql_query query (default (VDict ∅) (arguments !! "variables"))
    else if bool_decide (name = "check_ports") then
      _check_ports
    else if bool_decide (name = "view_config") then
      let! component := item_str arguments "component" in
      _view_config component
    else if bool_decide (name = "update_config") then
      let! key := item_str arguments "key" in
      let! value := item_str arguments "value" in
      _update_config key value
    else
      ret ("Unknown tool: " +:+ name) in
  ret [mk_text_content "text" result].

(** The arguments satisfy the tool's schema: the required keys are there
    and every declared key that is there has its declared JSON type. *)
Definition has_type (t : JsonType) (v : Value) : bool :=
  match t, v with
  | TBoolean, VBool _ | TString, VStr _ | TInteger, VInt _ | TObject, VDict _ => true
  | _, _ => false
  end.

Definition has_required (t : Tool) (arguments : gmap string Value) : bool :=
  forallb (λ k, bool_decide (is_Some (arguments !! k))) (required t).

Definition well_typed (t : Tool) (arguments : gmap string Value) : bool :=
  forallb (λ p, match arguments !! prop_name p with
                | Some v => has_type (prop_type p) v
                | None => true
                end) (properties t).

Definition conforms (t : Tool) (arguments : gmap string Value) : bool :=
  has_required t arguments && well_typed t arguments.

(** The catalog entry of a name. *)
Definition lookup_tool (n : string) : option Tool :=
  List.find (λ t, String.eqb (name t) n) list_tools.

End Server.

(** ** Properties of programs *)

(** [sat P Q p]: every event [p] can issue satisfies [P] and every result
    it can end in satisfies [Q], whatever the environment answers. *)
Fixpoint sat {A} (P : Event → Prop) (Q : A → Prop) (p : Prog A) : Prop :=
  match p with
  | Done a => Q a
  | Vis ev k => P ev ∧ ∀ x, sat P Q (k x)
  end.

(** The same for a handler, from every state. *)
Definition spec {A} (P : Event → Prop) (Q : Res A → Prop) (m : M A) : Prop :=
  ∀ st, sat P (λ r, Q r.1) (m st).

Definition is_returned {A} (r : Res A) : Prop := ∃ a, r = Returned a.


Definition any_event (ev : Event) : Prop := True.
Definition any_result {A} (r : Res A) : Prop := True.

(** The tools that test [self.initialized] before anything else. *)
Definition state_dependent_tools : list string :=
  ["run_playbook"; "quick_deploy"; "docker_build"; "view_config"; "update_config"].


(** The [timeout=] each tool passes to [subprocess.run]. *)
Definition timeout_of (n : string) : option Z :=
  if bool_decide (n = "quick_deploy") then Some 300
  else if bool_decide (n = "check_dependencies") then Some 5
  else None.

Definition timeout_policy (n : string) (ev : Event) : Prop :=
  match ev with
  | Run _ _ t => t = timeout_of n
  | _ => True
  end.

Definition run_without_timeout (ev : Event) : Prop :=
  match ev with
  | Run _ _ t => t = None
  | _ => True
  end.

(** The lines [_initialize_environment] appends for the key files, given
    which of them exist. *)
Definition key_file_report `{lib : PyLib} (found : list bool) : list string :=
  zip_with (λ f (b : bool), if b then f.1 +:+ " found: " +:+ f.2
                            else f.1 +:+ " missing: " +:+ f.2) key_files found.

(** The reason [_initialize_environment] reports when the answer to
    [git clone] is a failure it handles: the binary is missing, or the
    exit code is not zero. *)
Definition clone_failure (a : Exn + Completed) : option string :=
  match a with
  | inl e =>
      match exn_class e with
      | FileNotFoundError =>
          Some "Error: git is not installed. Please run 'install_dependencies' first"
      | _ => None
      end
  | inr r =>
      if returncode r =? 0 then None
      else Some ("Failed to clone repository: " +:+ stderr r)
  end.


(** *** Recap extraction, two descriptions *)

Definition is_marker (line : string) : bool := contains "PLAY RECAP" line.

(** The lines from the first marker line on. *)
Fixpoint from_first_marker (ls : list string) : list string :=
  match ls with
  | [] => []
  | l :: rest => if is_marker l then l :: rest else from_first_marker rest
  end.

(** What one line contributes once the recap has started: a marker line
    gives the header, another non-blank line gives itself. *)
Definition summary_entries (line : string) : list string :=
  if is_marker line then [summary_header]
  else if nonblank line then [line]
  else [].


(** *** Value conversion and key selection, in the words of the spec *)




(** ** Sample environments *)

(** A stand-in for the libraries: documents are rendered by their number
    of keys, every file parses to an empty mapping. *)
Definition sample_lib : PyLib := {|
  home := "/home/op";
  yaml_safe_load := λ _, inr (VDict ∅);
  yaml_dump := λ v, match v with VDict d => "keys: " +:+ pretty (size d) | _ => "scalar" end;
  json_dumps := λ _, "{}"
|}.



(** An environment where every call succeeds with the given answers:
    paths exist or not by [present], commands are found by [installed],
    a process ends with [proc]. *)
Definition steady_oracle (present installed : bool) (proc : Exn + Completed)
    (content : string) : Oracle :=
  λ _ ev,
    match ev with
    | Mkdir _ => inr tt
    | Rmtree _ => inr tt
    | Chmod _ _ => inr tt
    | WriteFile _ _ => inr tt
    | PathExists _ => inr present
    | Which _ => installed
    | Run _ _ _ => proc
    | ReadFile _ => inr content
    | HttpPost _ _ => inl (mk_exn OtherException "Cannot connect to host")
    | HttpGet _ => inl (mk_exn OtherException "Cannot connect to host")
    end.

(** An environment where the working directory cannot be created. *)
Definition denied_oracle : Oracle :=
  λ h ev,
    match ev as e return answer e with
    | Mkdir _ => inl (mk_exn OtherException "Permission denied")
    | e => steady_oracle true true (inr (mk_completed 0 "" "")) "" h e
    end.

Definition ok_process (out : string) : Exn + Completed := inr (mk_completed 0 out "").
Definition failed_process (code : Z) (err : string) : Exn + Completed :=
  inr (mk_completed code "" err).

(** ** Further properties of programs *)

(** [state_post Q m]: whatever the environment answers, the state [m] ends
    in is related by [Q] to the state it started from. *)
Definition state_post {A} (Q : State → State → Prop) (m : M A) : Prop :=
  ∀ st, sat any_event (λ r, Q st r.2) (m st).

(** The lifecycle flag does not go back: once set it stays set. *)
Definition flag_kept (st st' : State) : Prop :=
  initialized st = true → initialized st' = true.

(** The closing lines of the dependency report, from the critical
    commands that were not found. *)
Definition dependency_summary (missing : list string) : list string :=
  match missing with
  | [] => [nl +:+ "All critical dependencies are installed!"]
  | _ :: _ =>
      [nl +:+ "Missing critical dependencies: " +:+ join ", " missing;
       "Run 'install_dependencies' to attempt automatic installation"]
  end.

(** What the report line of one dependency looks like. *)
Definition dependency_line (installed : bool) (dep : string * string) (line : string)
    : Prop :=
  if installed then ∃ version, line = dep.1 +:+ ": " +:+ version
  else line = dep.1 +:+ ": NOT FOUND - " +:+ dep.2.


(** The line [_restart_service] reports for a service when restarting all
    of them, from the answer to [systemctl restart]. *)
Definition restart_line (svc : string) (a : Exn + Completed) : string :=
  match a with
  | inr _ => "Restarted " +:+ svc
  | inl _ => "Failed to restart " +:+ svc
  end.

(** The line names one of the relevant ports after a colon. *)
Definition mentions_port (line : string) : Prop :=
  ∃ port pre post, port ∈ relevant_ports ∧ line = pre +:+ ":" +:+ port +:+ post.


(** *** A file that keeps what is written *)




(** * Verification *)

(** ** Text samples *)

Example strip_sample : Text.strip "  ok " = "ok".
Proof. reflexivity. Qed.

Example split_sample :
  Text.split "," "a,,b" = ["a"; ""; "b"].
Proof. reflexivity. Qed.

Example int_sample : Text.int_of_digits "042" = 42.
Proof. reflexivity. Qed.

Example last_chars_sample : Text.last_chars 3 "abcdef" = "def" ∧ Text.last_chars 9 "ab" = "ab".
Proof. split; reflexivity. Qed.

(** ** Running and reasoning about programs *)

Lemma exec_pbind {A B} (o : Oracle) (h : list Event) (p : Prog A) (f : A → Prog B) :
  exec o h (pbind p f) = exec o (exec o h p).1 (f (exec o h p).2).
Proof.
  revert h. induction p as [a | ev k IH]; intros h; simpl; [done |]. apply IH.
Qed.

Lemma sat_mono {A} (P P' : Event → Prop) (Q Q' : A → Prop) (p : Prog A) :
  (∀ ev, P ev → P' ev) → (∀ a, Q a → Q' a) → sat P Q p → sat P' Q' p.
Proof.
  intros HP HQ. induction p as [a | ev k IH]; simpl; [auto |].
  intros [Hev Hk]. split; [auto |]. intros x. apply IH, Hk.
Qed.

Lemma sat_pbind {A B} (P : Event → Prop) (Q : B → Prop) (p : Prog A) (f : A → Prog B) :
  sat P (λ a, sat P Q (f a)) p → sat P Q (pbind p f).
Proof.
  induction p as [a | ev k IH]; simpl; [done |].
  intros [Hev Hk]. split; [done |]. intros x. apply IH, Hk.
Qed.

Lemma sat_exec {A} (P : Event → Prop) (Q : A → Prop) (o : Oracle) (p : Prog A) :
  sat P Q p → ∀ h, Forall P h → Forall P (exec o h p).1 ∧ Q (exec o h p).2.
Proof.
  induction p as [a | ev k IH]; simpl; intros Hp h Hh; [done |].
  destruct Hp as [Hev Hk]. apply IH; [apply Hk |].
  apply Forall_app. split; [done |]. by apply Forall_singleton.
Qed.

Lemma spec_run {A} (P : Event → Prop) (Q : Res A → Prop) (o : Oracle) (m : M A)
    (st : State) :
  spec P Q m → Forall P (trace (run o m st)) ∧ Q (outcome (run o m st)).
Proof.
  intros Hm. unfold run, trace, outcome.
  by apply (sat_exec P (λ r, Q r.1) o (m st) (Hm st) []).
Qed.

Lemma spec_ret {A} (P : Event → Prop) (Q : Res A → Prop) (a : A) :
  Q (Returned a) → spec P Q (ret a).
Proof. intros Ha st. exact Ha. Qed.

Lemma spec_raise {A} (P : Event → Prop) (Q : Res A → Prop) (e : Exn) :
  Q (Raised e) → spec P Q (raise_ e).
Proof. intros He st. exact He. Qed.

Lemma spec_bind {A B} (P : Event → Prop) (Q : Res B → Prop) (m : M A) (f : A → M B) :
  spec P (λ r, match r with
               | Returned a => spec P Q (f a)
               | Raised e => Q (Raised e)
               end) m →
  spec P Q (bind m f).
Proof.
  intros Hm st. unfold bind. apply sat_pbind.
  eapply sat_mono; [| | apply (Hm st)]; [done |].
  intros [[a | e] st'] Hr; simpl in *; [apply Hr | exact Hr].
Qed.

Lemma spec_try {A} (P : Event → Prop) (Q : Res A → Prop) (body : M A)
    (handler : Exn → M A) :
  spec P (λ r, match r with
               | Returned a => Q (Returned a)
               | Raised e => spec P Q (handler e)
               end) body →
  spec P Q (try_except body handler).
Proof.
  intros Hm st. unfold try_except. apply sat_pbind.
  eapply sat_mono; [| | apply (Hm st)]; [done |].
  intros [[a | e] st'] Hr; simpl in *; [exact Hr | apply Hr].
Qed.

Lemma spec_of_sum {A} (P : Event → Prop) (Q : Res A → Prop) (x : Exn + A) :
  (∀ e, Q (Raised e)) → (∀ a, Q (Returned a)) → spec P Q (of_sum x).
Proof. intros He Ha st. destruct x; simpl; auto. Qed.

Lemma spec_get_initialized (P : Event → Prop) (Q : Res bool → Prop) :
  (∀ b, Q (Returned b)) → spec P Q get_initialized.
Proof. intros Hb st. apply Hb. Qed.

Lemma spec_set_initialized (P : Event → Prop) (Q : Res unit → Prop) (b : bool) :
  Q (Returned tt) → spec P Q (set_initialized b).
Proof. intros Hb st. apply Hb. Qed.

Lemma spec_which (P : Event → Prop) (Q : Res bool → Prop) (c : string) :
  P (Which c) → (∀ b, Q (Returned b)) → spec P Q (which c).
Proof. intros Hev Hb st. split; [done |]. intros x. apply Hb. Qed.

Lemma spec_call {A} (P : Event → Prop) (Q : Res A → Prop) (ev : Event)
    (conv : answer ev → Exn + A) :
  P ev → (∀ e, Q (Raised e)) → (∀ a, Q (Returned a)) →
  spec P Q (λ st, Vis ev (λ x, of_sum (conv x) st)).
Proof.
  intros Hev He Ha st. split; [done |]. intros x. by apply spec_of_sum.
Qed.

Lemma spec_path_exists (P : Event → Prop) (Q : Res bool → Prop) (p : string) :
  P (PathExists p) → (∀ e, Q (Raised e)) → (∀ b, Q (Returned b)) →
  spec P Q (path_exists p).
Proof. apply (spec_call P Q (PathExists p) id). Qed.

Lemma spec_mkdir (P : Event → Prop) (Q : Res unit → Prop) (p : string) :
  P (Mkdir p) → (∀ e, Q (Raised e)) → (∀ u, Q (Returned u)) → spec P Q (mkdir p).
Proof. apply (spec_call P Q (Mkdir p) id). Qed.

Lemma spec_rmtree (P : Event → Prop) (Q : Res unit → Prop) (p : string) :
  P (Rmtree p) → (∀ e, Q (Raised e)) → (∀ u, Q (Returned u)) → spec P Q (rmtree p).
Proof. apply (spec_call P Q (Rmtree p) id). Qed.

Lemma spec_chmod (P : Event → Prop) (Q : Res unit → Prop) (p : string) (mode : Z) :
  P (Chmod p mode) → (∀ e, Q (Raised e)) → (∀ u, Q (Returned u)) →
  spec P Q (chmod p mode).
Proof. apply (spec_call P Q (Chmod p mode) id). Qed.

Lemma spec_subprocess_run (P : Event → Prop) (Q : Res Completed → Prop)
    (cmd : list string) (cwd : option string) (timeout : option Z) :
  P (Run cmd cwd timeout) → (∀ e, Q (Raised e)) → (∀ r, Q (Returned r)) →
  spec P Q (subprocess_run cmd cwd timeout).
Proof. apply (spec_call P Q (Run cmd cwd timeout) id). Qed.

Lemma spec_read_file (P : Event → Prop) (Q : Res string → Prop) (p : string) :
  P (ReadFile p) → (∀ e, Q (Raised e)) → (∀ s, Q (Returned s)) → spec P Q (read_file p).
Proof. apply (spec_call P Q (ReadFile p) id). Qed.

Lemma spec_write_file (P : Event → Prop) (Q : Res unit → Prop) (p content : string) :
  P (WriteFile p content) → (∀ e, Q (Raised e)) → (∀ u, Q (Returned u)) →
  spec P Q (write_file p content).
Proof. apply (spec_call P Q (WriteFile p content) id). Qed.

Lemma spec_http_post (P : Event → Prop) (Q : Res Response → Prop) (url : string)
    (payload : Value) :
  P (HttpPost url payload) → (∀ e, Q (Raised e)) → (∀ r, Q (Returned r)) →
  spec P Q (http_post url payload).
Proof. apply (spec_call P Q (HttpPost url payload) id). Qed.

Lemma spec_http_get (P : Event → Prop) (Q : Res Response → Prop) (url : string) :
  P (HttpGet url) → (∀ e, Q (Raised e)) → (∀ r, Q (Returned r)) →
  spec P Q (http_get url).
Proof. apply (spec_call P Q (HttpGet url) id). Qed.

(** One step of a proof of [spec]: follow the shape of the program. *)
Ltac spec_step :=
  lazymatch goal with
  | |- spec _ _ (bind _ _) => apply spec_bind
  | |- spec _ _ (try_except _ _) => apply spec_try
  | |- spec _ _ (ret _) => apply spec_ret
  | |- spec _ _ (raise_ _) => apply spec_raise
  | |- spec _ _ (of_sum _) => apply spec_of_sum
  | |- spec _ _ get_initialized => apply spec_get_initialized
  | |- spec _ _ (set_initialized _) => apply spec_set_initialized
  | |- spec _ _ (which _) => apply spec_which
  | |- spec _ _ (path_exists _) => apply spec_path_exists
  | |- spec _ _ (mkdir _) => apply spec_mkdir
  | |- spec _ _ (rmtree _) => apply spec_rmtree
  | |- spec _ _ (chmod _ _) => apply spec_chmod
  | |- spec _ _ (subprocess_run _ _ _) => apply spec_subprocess_run
  | |- spec _ _ (read_file _) => apply spec_read_file
  | |- spec _ _ (write_file _ _) => apply spec_write_file
  | |- spec _ _ (http_post _ _) => apply spec_http_post
  | |- spec _ _ (http_get _) => apply spec_http_get
  | |- spec _ _ (if ?b then _ else _) => destruct b
  | |- spec _ _ (match ?x with _ => _ end) => destruct x
  | |- spec _ _ (let _ := _ in _) => lazy zeta
  | |- ∀ _, _ => intros ?
  | |- _ ∧ _ => split
  | |- is_returned (Returned _) => eexists; reflexivity
  | |- any_result _ => exact I
  | |- any_event _ => exact I
  | |- True => exact I
  | |- timeout_policy _ _ => first [exact I | reflexivity]
  end; lazy beta iota.

Ltac spec_auto := repeat spec_step.

(** ** The stub *)

(** C10. [install_dependencies] returns the empty string and issues no
    event, for every [use_sudo], in every state and every environment,
    both as a handler and through the dispatcher. *)
Theorem install_dependencies_is_stub `{lib : PyLib} :
  (∀ (use_sudo : bool) (st : State),
     _install_dependencies use_sudo st = Done (Returned "", st)) ∧
  (∀ (o : Oracle) (arguments : gmap string Value) (st : State),
     run o (call_tool "install_dependencies" arguments) st
     = ([], (Returned [mk_text_content "text" ""], st))).
Proof. split; reflexivity. Qed.

(** Settle a decidable statement about concrete data by evaluation. *)
Ltac by_computation := apply (bool_decide_unpack _); vm_compute; exact I.

(** ** Unknown tools *)

Lemma tool_names_eq :
  tool_names =
  ["initialize_environment"; "check_dependencies"; "install_dependencies";
   "run_playbook"; "quick_deploy"; "docker_build"; "docker_run";
   "check_services"; "restart_service"; "view_logs";
   "commit_transaction"; "get_transaction"; "graphql_query";
   "check_ports"; "view_config"; "update_config"].
Proof. reflexivity. Qed.

(** C8. For a name outside the catalog, whatever the arguments, the
    dispatcher issues no event, raises nothing, leaves the state alone and
    returns the one text block "Unknown tool: <name>". *)
Theorem unknown_tool_result `{lib : PyLib} (o : Oracle) (n : string)
    (arguments : gmap string Value) (st : State) :
  n ∉ tool_names →
  run o (call_tool n arguments) st
  = ([], (Returned [mk_text_content "text" ("Unknown tool: " +:+ n)], st)).
Proof.
  rewrite tool_names_eq. intros Hn.
  repeat (apply not_elem_of_cons in Hn as [? Hn]).
  unfold call_tool. rewrite !bool_decide_eq_false_2 by done. reflexivity.
Qed.

Lemma unknown_tool_result_witness :
  ("deploy_everything" ∉ tool_names) ∧
  run (steady_oracle true true (ok_process "") "")
    (@call_tool sample_lib "deploy_everything" ∅) (mk_state false)
  = ([], (Returned [mk_text_content "text" "Unknown tool: deploy_everything"],
          mk_state false)).
Proof.
  assert (H : "deploy_everything" ∉ tool_names) by by_computation.
  split; [exact H |].
  exact (@unknown_tool_result sample_lib
           (steady_oracle true true (ok_process "") "") "deploy_everything" ∅
           (mk_state false) H).
Defined.

(** ** The lifecycle gate *)

Lemma run_blocked (o : Oracle) (st : State) (m : M string) :
  initialized st = false →
  run o (let! init := get_initialized in
         if negb init then ret not_initialized_message else m) st
  = ([], (Returned not_initialized_message, st)).
Proof. intros Hst. unfold run, bind, get_initialized. simpl. by rewrite Hst. Qed.

(** What [conforms] gives for each way the dispatcher reads an argument. *)
Lemma get_str_typed (arguments : gmap string Value) (k d : string) :
  match arguments !! k with Some v => has_type TString v | None => true end = true →
  ∃ s, get_str arguments k d = ret s.
Proof.
  unfold get_str. destruct (arguments !! k) as [[] |]; simpl; try done; eauto.
Qed.

Lemma item_str_typed (arguments : gmap string Value) (k : string) :
  bool_decide (is_Some (arguments !! k)) = true →
  match arguments !! k with Some v => has_type TString v | None => true end = true →
  ∃ s, item_str arguments k = ret s.
Proof.
  unfold item_str. intros Hk%bool_decide_eq_true.
  destruct (arguments !! k) as [[] |]; simpl; try done; eauto.
Qed.

Lemma get_int_typed (arguments : gmap string Value) (k : string) (d : Z) :
  match arguments !! k with Some v => has_type TInteger v | None => true end = true →
  ∃ n, get_int arguments k d = ret n.
Proof.
  unfold get_int. destruct (arguments !! k) as [[] |]; simpl; try done; eauto.
Qed.

Lemma bind_ret_l {A B} (a : A) (f : A → M B) : bind (ret a) f = f a.
Proof. reflexivity. Qed.

(** C2. While [initialized] is false, each of the five state-dependent
    handlers returns the fixed block message, issues no event at all (no
    query, no process, no file read or write) and leaves the state alone,
    in every environment; so does the dispatcher for these five tools on
    arguments that conform to the schema. *)
Theorem gate_blocks_when_uninitialized `{lib : PyLib} (o : Oracle) (st : State) :
  initialized st = false →
  not_initialized_message
    = "Environment not initialized. Please run 'initialize_environment' first" ∧
  (∀ tags limit check,
     run o (_run_playbook tags limit check) st = ([], (Returned not_initialized_message, st))) ∧
  run o _quick_deploy st = ([], (Returned not_initialized_message, st)) ∧
  (∀ tag, run o (_docker_build tag) st = ([], (Returned not_initialized_message, st))) ∧
  (∀ component,
     run o (_view_config component) st = ([], (Returned not_initialized_message, st))) ∧
  (∀ key value,
     run o (_update_config key value) st = ([], (Returned not_initialized_message, st))) ∧
  (∀ n t arguments,
     n ∈ state_dependent_tools → lookup_tool n = Some t → conforms t arguments = true →
     run o (call_tool n arguments) st
     = ([], (Returned [mk_text_content "text" not_initialized_message], st))).
Proof.
  intros Hst.
  assert (Hrun : ∀ m : M string,
    run o m st = ([], (Returned not_initialized_message, st)) →
    run o (let! result := m in ret [mk_text_content "text" result]) st
    = ([], (Returned [mk_text_content "text" not_initialized_message], st))).
  { intros m Hm. unfold run, bind in *. rewrite exec_pbind, Hm. reflexivity. }
  split; [reflexivity |].
  split; [intros; by apply run_blocked |].
  split; [by apply run_blocked |].
  split; [intros; by apply run_blocked |].
  split; [intros; by apply run_blocked |].
  split; [intros; by apply run_blocked |].
  intros n t arguments Hn Ht Hc.
  unfold state_dependent_tools in Hn.
  apply andb_prop in Hc as [Hreq Hty].
  repeat (apply elem_of_cons in Hn as [-> | Hn]); [.. | by apply elem_of_nil in Hn];
    injection Ht as <-; unfold has_required, well_typed in *; simpl in *;
    repeat match goal with
           | H : _ && _ = true |- _ => apply andb_prop in H as [? ?]
           end.
  - destruct (get_str_typed arguments "tags" "all") as [tags Htags]; [done |].
    destruct (get_str_typed arguments "limit" "all") as [limit Hlimit]; [done |].
    apply Hrun. change (run o (let! tags := get_str arguments "tags" "all" in
                               let! limit := get_str arguments "limit" "all" in
                               _run_playbook tags limit (get_bool arguments "check" false)) st
                        = ([], (Returned not_initialized_message, st))).
    rewrite Htags, bind_ret_l, Hlimit, bind_ret_l. by apply run_blocked.
  - apply Hrun. by apply (run_blocked o st).
  - destruct (get_str_typed arguments "tag" "resilientdb-ansible:latest") as [tag Htag]; [done |].
    apply Hrun. change (run o (let! tag := get_str arguments "tag" "resilientdb-ansible:latest" in
                               _docker_build tag) st
                        = ([], (Returned not_initialized_message, st))).
    rewrite Htag, bind_ret_l. by apply run_blocked.
  - destruct (item_str_typed arguments "component") as [c Hc]; [done.. |].
    apply Hrun. change (run o (let! component := item_str arguments "component" in
                               _view_config component) st
                        = ([], (Returned not_initialized_message, st))).
    rewrite Hc, bind_ret_l. by apply run_blocked.
  - destruct (item_str_typed arguments "key") as [k Hk]; [done.. |].
    destruct (item_str_typed arguments "value") as [v Hv]; [done.. |].
    apply Hrun. change (run o (let! key := item_str arguments "key" in
                               let! value := item_str arguments "value" in
                               _update_config key value) st
                        = ([], (Returned not_initialized_message, st))).
    rewrite Hk, bind_ret_l, Hv, bind_ret_l. by apply run_blocked.
Qed.

Lemma gate_blocks_when_uninitialized_witness :
  initialized (mk_state false) = false ∧
  run (steady_oracle true true (ok_process "") "key: 1")
    (@_view_config sample_lib "nginx") (mk_state false)
  = ([], (Returned "Environment not initialized. Please run 'initialize_environment' first",
          mk_state false)) ∧
  run (steady_oracle true true (ok_process "") "key: 1")
    (@call_tool sample_lib "update_config"
       {[ "key" := VStr "crow_port"; "value" := VStr "18001" ]}) (mk_state false)
  = ([], (Returned [mk_text_content "text" not_initialized_message], mk_state false)).
Proof.
  pose proof (@gate_blocks_when_uninitialized sample_lib
                (steady_oracle true true (ok_process "") "key: 1")
                (mk_state false) eq_refl) as (_ & _ & _ & _ & Hview & _ & Hcall).
  split; [reflexivity |]. split; [apply Hview |].
  eapply Hcall; [by_computation | reflexivity | vm_compute; reflexivity].
Defined.

(** ** The dispatch boundary *)

Lemma spec_mono {A} (P : Event → Prop) (Q Q' : Res A → Prop) (m : M A) :
  spec P Q m → (∀ r, Q r → Q' r) → spec P Q' m.
Proof. intros Hm HQ st. eapply sat_mono; [| | apply (Hm st)]; [done |]. intros r. apply HQ. Qed.

(** The three loops return, and only issue the events of their bodies. *)
Lemma check_deps_loop_spec (P : Event → Prop) (ds : list (string * string)) :
  (∀ c, P (Which c)) → (∀ cmd, P (Run cmd None (Some 5))) →
  ∀ results missing, spec P is_returned (check_deps_loop ds results missing).
Proof.
  intros Hw Hr. induction ds as [| [cmd description] rest IH]; intros results missing; simpl.
  - apply spec_ret. by eexists.
  - apply spec_bind, spec_which; [done |]. intros [].
    + apply spec_bind, spec_try, spec_bind, spec_subprocess_run; [done | |].
      * intros e. apply spec_ret, IH.
      * intros r. apply spec_ret, IH.
    + apply IH.
Qed.

Lemma check_services_loop_spec (P : Event → Prop) (svcs : list string) :
  (∀ cmd, P (Run cmd None None)) →
  ∀ status_info, spec P is_returned (check_services_loop svcs status_info).
Proof.
  intros Hr. induction svcs as [| service rest IH]; intros status_info; simpl.
  - apply spec_ret. by eexists.
  - apply spec_bind, spec_try, spec_bind, spec_subprocess_run; [done | |].
    + intros e. apply spec_ret, IH.
    + intros r. apply spec_ret, IH.
Qed.

Lemma restart_all_loop_spec (P : Event → Prop) (svcs : list string) :
  (∀ cmd, P (Run cmd None None)) →
  ∀ results, spec P is_returned (restart_all_loop svcs results).
Proof.
  intros Hr. induction svcs as [| svc rest IH]; intros results; simpl.
  - apply spec_ret. by eexists.
  - apply spec_bind, spec_try, spec_bind, spec_subprocess_run; [done | |].
    + intros e. apply spec_ret, IH.
    + intros r. apply spec_ret, IH.
Qed.

Lemma report_key_files_events (P : Event → Prop) (files : list (string * string)) :
  (∀ p, P (PathExists p)) →
  ∀ results, spec P any_result (report_key_files files results).
Proof.
  intros Hp. induction files as [| [name path] rest IH]; intros results; simpl.
  - by apply spec_ret.
  - apply spec_bind, spec_path_exists; [done.. |]. intros b. apply IH.
Qed.

Ltac head_of t :=
  lazymatch t with
  | ?f _ => head_of f
  | _ => t
  end.

(** A loop is replaced by its lemma; anything else is unfolded and
    followed. *)
Ltac spec_go :=
  repeat first
    [ spec_step
    | lazymatch goal with
      | |- spec _ _ (check_deps_loop _ _ _) =>
          eapply spec_mono; [apply check_deps_loop_spec | intros ? [? ->]]
      | |- spec _ _ (check_services_loop _ _) =>
          eapply spec_mono; [apply check_services_loop_spec | intros ? [? ->]]
      | |- spec _ _ (restart_all_loop _ _) =>
          eapply spec_mono; [apply restart_all_loop_spec | intros ? [? ->]]
      | |- spec _ _ (report_key_files _ _) =>
          eapply spec_mono; [apply report_key_files_events | intros [] _]
      | |- spec _ _ ?m => let h := head_of m in unfold h
      end; lazy beta iota ].

Section Guarded.
Context `{lib : PyLib}.

Lemma check_dependencies_returns : spec any_event is_returned _check_dependencies.
Proof. spec_go. Qed.

Lemma install_dependencies_returns b : spec any_event is_returned (_install_dependencies b).
Proof. spec_go. Qed.

Lemma docker_run_returns tag detach : spec any_event is_returned (_docker_run tag detach).
Proof. spec_go. Qed.

Lemma check_services_returns : spec any_event is_returned _check_services.
Proof. spec_go. Qed.

Lemma restart_service_returns service : spec any_event is_returned (_restart_service service).
Proof. spec_go. Qed.

Lemma view_logs_returns service n : spec any_event is_returned (_view_logs service n).
Proof. spec_go. Qed.

Lemma commit_transaction_returns i v : spec any_event is_returned (_commit_transaction i v).
Proof. spec_go. Qed.

Lemma get_transaction_returns i : spec any_event is_returned (_get_transaction i).
Proof. spec_go. Qed.

Lemma graphql_query_returns q vars : spec any_event is_returned (_graphql_query q vars).
Proof. spec_go. Qed.

Lemma check_ports_returns : spec any_event is_returned _check_ports.
Proof. spec_go. Qed.

Lemma update_config_returns key value : spec any_event is_returned (_update_config key value).
Proof. spec_go. Qed.

End Guarded.








(** An exception raised outside a handler's [try] block reaches the caller
    as well, here a failing [mkdir] in [initialize_environment] called with
    conforming arguments. *)
Example initialize_environment_propagates :
  outcome (run denied_oracle
             (@call_tool sample_lib "initialize_environment" {[ "force" := VBool false ]})
             (mk_state false))
  = Raised (mk_exn OtherException "Permission denied").
Proof. reflexivity. Qed.

(** ** Process timeouts *)

(** C4, as the code has it.  Whatever the tool, the arguments, the state
    and the environment, every [subprocess.run] the dispatcher reaches
    carries the timeout of [timeout_of]: 300 seconds in [quick_deploy],
    5 seconds for the version probes of [check_dependencies], and none
    anywhere else. *)
Theorem process_timeouts `{lib : PyLib} (o : Oracle) (n : string)
    (arguments : gmap string Value) (st : State) :
  Forall (timeout_policy n) (trace (run o (call_tool n arguments) st)) ∧
  timeout_of "quick_deploy" = Some 300 ∧
  timeout_of "check_dependencies" = Some 5 ∧
  (n ≠ "quick_deploy" → n ≠ "check_dependencies" → timeout_of n = None).
Proof.
  split; [| split; [reflexivity | split; [reflexivity |]]].
  - cut (spec (timeout_policy n) any_result (call_tool n arguments)).
    { intros Hs. apply (spec_run _ _ o _ st Hs). }
    unfold call_tool. apply spec_bind.
    repeat case_bool_decide; subst; spec_go.
  - intros H1 H2. unfold timeout_of. by rewrite !bool_decide_eq_false_2.
Qed.

Lemma process_timeouts_witness :
  "docker_run" ≠ "quick_deploy" ∧ "docker_run" ≠ "check_dependencies" ∧
  Forall (timeout_policy "docker_run")
    (trace (run (steady_oracle true true (ok_process "3f2a9c") "")
              (@call_tool sample_lib "docker_run" ∅) (mk_state false))) ∧
  timeout_of "docker_run" = None.
Proof.
  pose proof (@process_timeouts sample_lib
                (steady_oracle true true (ok_process "3f2a9c") "")
                "docker_run" ∅ (mk_state false)) as (Hall & _ & _ & Hnone).
  assert (H1 : "docker_run" ≠ "quick_deploy") by done.
  assert (H2 : "docker_run" ≠ "check_dependencies") by done.
  split; [exact H1 |]. split; [exact H2 |]. split; [exact Hall |].
  exact (Hnone H1 H2).
Defined.

(** C4 as the spec states it fails: [check_dependencies] is not
    [quick_deploy], and where [git] is installed its second event is the
    version probe, run with [timeout=5]. *)
Lemma check_dependencies_passes_timeout :
  "check_dependencies" ≠ "quick_deploy" ∧
  trace (run (steady_oracle true true (ok_process "version 2") "")
           (@call_tool sample_lib "check_dependencies" ∅) (mk_state false)) !! 1%nat
  = Some (Run ["git"; "--version"] None (Some 5)) ∧
  ¬ Forall run_without_timeout
      (trace (run (steady_oracle true true (ok_process "version 2") "")
                (@call_tool sample_lib "check_dependencies" ∅) (mk_state false))).
Proof.
  split; [done |]. split; [reflexivity |].
  intros H. eapply Forall_lookup_1 in H; [| by instantiate (2 := 1%nat)].
  discriminate H.
Qed.

(** The one five-minute limit: [quick_deploy] in an initialized state. *)
Example quick_deploy_events :
  trace (run (steady_oracle true true (ok_process "All services started") "")
           (@call_tool sample_lib "quick_deploy" ∅) (mk_state true))
  = [ PathExists "/home/op/.resilientdb-mcp/incubator-resilientdb-ansible/complete-startup.sh";
      Chmod "/home/op/.resilientdb-mcp/incubator-resilientdb-ansible/complete-startup.sh" 493;
      Run ["bash"; "/home/op/.resilientdb-mcp/incubator-resilientdb-ansible/complete-startup.sh"]
        (Some "/home/op/.resilientdb-mcp/incubator-resilientdb-ansible") (Some 300) ].
Proof. reflexivity. Qed.

(** ** Initialization *)

(** Unfold one layer of a running handler, keeping paths and texts folded. *)
Ltac exec_step :=
  cbn [exec pbind bind try_except ret raise_ of_sum get_initialized set_initialized
       mkdir rmtree chmod path_exists which subprocess_run read_file write_file
       report_key_files fst snd negb andb];
  rewrite <- ?app_assoc; cbn [app].

(** C7. With [force] false and the deployment directory present, a call
    from any state and after any earlier events asks for the working
    directory ([mkdir] with [exist_ok], here answered without error),
    tests the directory and the four key files, and issues nothing else:
    no [rmtree], no [git clone], no write.  It returns "Repository already
    exists at <dir>" followed by the key-file report, and ends with
    [initialized] true.  A second call is such a call again. *)
Theorem initialize_existing_without_force `{lib : PyLib} (o : Oracle)
    (h : list Event) (st : State) (b1 b2 b3 b4 : bool) :
  o h (Mkdir WORK_DIR) = inr tt →
  o (h ++ [Mkdir WORK_DIR]) (PathExists ANSIBLE_DIR) = inr true →
  o (h ++ [Mkdir WORK_DIR; PathExists ANSIBLE_DIR]) (PathExists PLAYBOOK_FILE) = inr b1 →
  o (h ++ [Mkdir WORK_DIR; PathExists ANSIBLE_DIR; PathExists PLAYBOOK_FILE])
    (PathExists INVENTORY_FILE) = inr b2 →
  o (h ++ [Mkdir WORK_DIR; PathExists ANSIBLE_DIR; PathExists PLAYBOOK_FILE;
           PathExists INVENTORY_FILE])
    (PathExists (path_join ANSIBLE_DIR "dockerfile")) = inr b3 →
  o (h ++ [Mkdir WORK_DIR; PathExists ANSIBLE_DIR; PathExists PLAYBOOK_FILE;
           PathExists INVENTORY_FILE; PathExists (path_join ANSIBLE_DIR "dockerfile")])
    (PathExists (path_join ANSIBLE_DIR "complete-startup.sh")) = inr b4 →
  exec o h (_initialize_environment false st)
  = (h ++ [Mkdir WORK_DIR; PathExists ANSIBLE_DIR; PathExists PLAYBOOK_FILE;
           PathExists INVENTORY_FILE; PathExists (path_join ANSIBLE_DIR "dockerfile");
           PathExists (path_join ANSIBLE_DIR "complete-startup.sh")],
     (Returned (join nl (("Repository already exists at " +:+ ANSIBLE_DIR)
                         :: key_file_report [b1; b2; b3; b4])),
      mk_state true)).
Proof.
  intros H0 H1 H2 H3 H4 H5.
  unfold _initialize_environment, key_files.
  exec_step. rewrite H0. exec_step. rewrite H1. exec_step.
  rewrite H2. exec_step. rewrite H3. exec_step. rewrite H4. exec_step.
  rewrite H5. exec_step. reflexivity.
Qed.

Lemma initialize_existing_without_force_witness :
  steady_oracle true true (ok_process "") "" [] (Mkdir (@WORK_DIR sample_lib)) = inr tt ∧
  steady_oracle true true (ok_process "") "" [Mkdir (@WORK_DIR sample_lib)]
    (PathExists (@ANSIBLE_DIR sample_lib)) = inr true ∧
  exec (steady_oracle true true (ok_process "") "") []
    (@_initialize_environment sample_lib false (mk_state false))
  = ([Mkdir "/home/op/.resilientdb-mcp";
      PathExists "/home/op/.resilientdb-mcp/incubator-resilientdb-ansible";
      PathExists "/home/op/.resilientdb-mcp/incubator-resilientdb-ansible/site.yml";
      PathExists "/home/op/.resilientdb-mcp/incubator-resilientdb-ansible/inventories/production/hosts";
      PathExists "/home/op/.resilientdb-mcp/incubator-resilientdb-ansible/dockerfile";
      PathExists "/home/op/.resilientdb-mcp/incubator-resilientdb-ansible/complete-startup.sh"],
     (Returned (join nl
        ["Repository already exists at /home/op/.resilientdb-mcp/incubator-resilientdb-ansible";
         "Playbook found: /home/op/.resilientdb-mcp/incubator-resilientdb-ansible/site.yml";
         "Inventory found: /home/op/.resilientdb-mcp/incubator-resilientdb-ansible/inventories/production/hosts";
         "Dockerfile found: /home/op/.resilientdb-mcp/incubator-resilientdb-ansible/dockerfile";
         "Complete startup script found: /home/op/.resilientdb-mcp/incubator-resilientdb-ansible/complete-startup.sh"]),
      mk_state true)) ∧
  (exec (steady_oracle true true (ok_process "") "")
     (exec (steady_oracle true true (ok_process "") "") []
        (@_initialize_environment sample_lib false (mk_state false))).1
     (@_initialize_environment sample_lib false (mk_state true))).2
  = (exec (steady_oracle true true (ok_process "") "") []
       (@_initialize_environment sample_lib false (mk_state false))).2.
Proof.
  pose proof (@initialize_existing_without_force sample_lib
                (steady_oracle true true (ok_process "") "") [] (mk_state false)
                true true true true eq_refl eq_refl eq_refl eq_refl eq_refl eq_refl)
    as Hfirst.
  split; [reflexivity |]. split; [reflexivity |]. split; [exact Hfirst |].
  rewrite Hfirst.
  rewrite (@initialize_existing_without_force sample_lib
             (steady_oracle true true (ok_process "") "") _ (mk_state true)
             true true true true eq_refl eq_refl eq_refl eq_refl eq_refl eq_refl).
  reflexivity.
Defined.

Lemma exec_extends {A} (o : Oracle) (p : Prog A) (h : list Event) :
  ∃ rest, (exec o h p).1 = h ++ rest.
Proof.
  revert h. induction p as [a | ev k IH]; intros h; simpl.
  - exists []. by rewrite app_nil_r.
  - destruct (IH (o h ev) (h ++ [ev])) as [rest Hrest].
    exists (ev :: rest). rewrite Hrest, <- app_assoc. reflexivity.
Qed.

(** C3, as the code has it.  With [force] true and the deployment
    directory present (and [mkdir], [rmtree] answered without error) the
    call removes the directory and then runs [git clone] once, whatever
    follows.  If the clone fails, by a missing binary or a non-zero exit
    code, the call ends there: it returns "Removed existing repository"
    and the reason, issues no further event, and leaves [initialized] as
    it was before the call. *)
Theorem forced_reinitialize `{lib : PyLib} (o : Oracle) (h : list Event) (st : State) :
  o h (Mkdir WORK_DIR) = inr tt →
  o (h ++ [Mkdir WORK_DIR]) (PathExists ANSIBLE_DIR) = inr true →
  o (h ++ [Mkdir WORK_DIR; PathExists ANSIBLE_DIR]) (PathExists ANSIBLE_DIR) = inr true →
  o (h ++ [Mkdir WORK_DIR; PathExists ANSIBLE_DIR; PathExists ANSIBLE_DIR])
    (Rmtree ANSIBLE_DIR) = inr tt →
  (∃ rest,
     (exec o h (_initialize_environment true st)).1
     = h ++ [Mkdir WORK_DIR; PathExists ANSIBLE_DIR; PathExists ANSIBLE_DIR;
             Rmtree ANSIBLE_DIR;
             Run ["git"; "clone"; REPO_URL; ANSIBLE_DIR] None None] ++ rest) ∧
  (∀ reason,
     clone_failure
       (o (h ++ [Mkdir WORK_DIR; PathExists ANSIBLE_DIR; PathExists ANSIBLE_DIR;
                 Rmtree ANSIBLE_DIR])
          (Run ["git"; "clone"; REPO_URL; ANSIBLE_DIR] None None)) = Some reason →
     exec o h (_initialize_environment true st)
     = (h ++ [Mkdir WORK_DIR; PathExists ANSIBLE_DIR; PathExists ANSIBLE_DIR;
              Rmtree ANSIBLE_DIR;
              Run ["git"; "clone"; REPO_URL; ANSIBLE_DIR] None None],
        (Returned (join nl ["Removed existing repository"; reason]), st))).
Proof.
  intros H0 H1 H2 H3. split.
  - unfold _initialize_environment.
    exec_step. rewrite H0. exec_step. rewrite H1. exec_step.
    rewrite H2. exec_step. rewrite H3. exec_step.
    match goal with
    | |- ∃ rest, (exec o ?h' ?p).1 = _ => destruct (exec_extends o p h') as [rest ->]
    end.
    exists rest. rewrite <- app_assoc. reflexivity.
  - intros reason Hfail. unfold _initialize_environment.
    exec_step. rewrite H0. exec_step. rewrite H1. exec_step.
    rewrite H2. exec_step. rewrite H3. exec_step.
    destruct (o _ (Run _ _ _)) as [e | r]; simpl in Hfail.
    + exec_step. destruct (exn_class e); try done.
      injection Hfail as <-. reflexivity.
    + exec_step. destruct (returncode r =? 0); [done |].
      injection Hfail as <-. reflexivity.
Qed.

Lemma forced_reinitialize_witness :
  steady_oracle true true (failed_process 128 "fatal: unable to access") ""
    [] (Mkdir (@WORK_DIR sample_lib)) = inr tt ∧
  clone_failure (failed_process 128 "fatal: unable to access")
  = Some "Failed to clone repository: fatal: unable to access" ∧
  exec (steady_oracle true true (failed_process 128 "fatal: unable to access") "") []
    (@_initialize_environment sample_lib true (mk_state false))
  = ([Mkdir "/home/op/.resilientdb-mcp";
      PathExists "/home/op/.resilientdb-mcp/incubator-resilientdb-ansible";
      PathExists "/home/op/.resilientdb-mcp/incubator-resilientdb-ansible";
      Rmtree "/home/op/.resilientdb-mcp/incubator-resilientdb-ansible";
      Run ["git"; "clone"; "https://github.com/apache/incubator-resilientdb-ansible.git";
           "/home/op/.resilientdb-mcp/incubator-resilientdb-ansible"] None None],
     (Returned (join nl ["Removed existing repository";
                         "Failed to clone repository: fatal: unable to access"]),
      mk_state false)).
Proof.
  split; [reflexivity |]. split; [reflexivity |].
  exact (proj2 (@forced_reinitialize sample_lib
                  (steady_oracle true true (failed_process 128 "fatal: unable to access") "")
                  [] (mk_state false) eq_refl eq_refl eq_refl eq_refl)
           "Failed to clone repository: fatal: unable to access" eq_refl).
Defined.

(** C3 as the spec states it fails: after an earlier successful
    initialization the flag is true; a forced re-initialization whose
    clone exits with code 128 removes the directory and returns the
    failure, and the flag is still true. *)
Lemma failed_reclone_keeps_flag :
  run (steady_oracle true true (failed_process 128 "fatal: unable to access") "")
    (@_initialize_environment sample_lib true) (mk_state true)
  = ([Mkdir "/home/op/.resilientdb-mcp";
      PathExists "/home/op/.resilientdb-mcp/incubator-resilientdb-ansible";
      PathExists "/home/op/.resilientdb-mcp/incubator-resilientdb-ansible";
      Rmtree "/home/op/.resilientdb-mcp/incubator-resilientdb-ansible";
      Run ["git"; "clone"; "https://github.com/apache/incubator-resilientdb-ansible.git";
           "/home/op/.resilientdb-mcp/incubator-resilientdb-ansible"] None None],
     (Returned (join nl ["Removed existing repository";
                         "Failed to clone repository: fatal: unable to access"]),
      mk_state true)) ∧
  initialized (final (run (steady_oracle true true
                             (failed_process 128 "fatal: unable to access") "")
                        (@_initialize_environment sample_lib true) (mk_state true)))
  ≠ false.
Proof. split; [reflexivity | vm_compute; discriminate]. Qed.

(** ** Recap extraction *)

Lemma recap_step_started (acc : list string) (l : string) :
  recap_step (true, acc) l = (true, acc ++ summary_entries l).
Proof.
  unfold recap_step, summary_entries, is_marker. cbn [fst snd andb].
  destruct (contains "PLAY RECAP" l); [done |].
  destruct (nonblank l); [done |]. by rewrite app_nil_r.
Qed.

Lemma recap_step_before (l : string) :
  recap_step (false, []) l
  = if is_marker l then (true, summary_entries l) else (false, []).
Proof.
  unfold recap_step, summary_entries, is_marker. cbn [fst snd andb].
  by destruct (contains "PLAY RECAP" l).
Qed.

Lemma recap_started_fold (ls : list string) (acc : list string) :
  (fold_left recap_step ls (true, acc)).2 = acc ++ flat_map summary_entries ls.
Proof.
  revert acc. induction ls as [| l rest IH]; intros acc; cbn [fold_left flat_map].
  - by rewrite app_nil_r.
  - rewrite recap_step_started, IH, <- app_assoc. reflexivity.
Qed.

Lemma recap_summary_entries (ls : list string) :
  recap_summary ls = flat_map summary_entries (from_first_marker ls).
Proof.
  unfold recap_summary. induction ls as [| l rest IH]; cbn [fold_left from_first_marker].
  - reflexivity.
  - rewrite recap_step_before. destruct (is_marker l).
    + rewrite recap_started_fold. reflexivity.
    + apply IH.
Qed.






(** ** Configuration update *)








Lemma string_app_assoc (a b c : string) : (a +:+ b) +:+ c = a +:+ (b +:+ c).
Proof.
  induction a as [| x a IH]; [reflexivity |].
  change (String x ((a +:+ b) +:+ c) = String x (a +:+ (b +:+ c))). by rewrite IH.
Qed.








Example convert_value_samples :
  convert_value "42" = SInt 42 ∧ convert_value "007" = SInt 7 ∧
  convert_value "TRUE" = SBool true ∧ convert_value "False" = SBool false ∧
  convert_value "4.2" = SStr "4.2" ∧ convert_value "-1" = SStr "-1" ∧
  convert_value "" = SStr "" ∧ convert_value "yes" = SStr "yes".
Proof. repeat split; reflexivity. Qed.

(** ** Configuration view *)

Lemma prefix_spec (a s : string) :
  String.prefix a s = true ↔ ∃ post, s = a +:+ post.
Proof.
  revert s. induction a as [| x a IH]; intros s.
  - destruct s; simpl; split; eauto.
  - destruct s as [| y s]; simpl.
    + split; [done | intros [post H]; discriminate H].
    + destruct (ascii_dec x y) as [-> | Hxy].
      * rewrite IH. split.
        -- intros [post ->]. by exists post.
        -- intros [post H]. injection H as ->. by exists post.
      * split; [done |]. intros [post H]. injection H as ? ?. done.
Qed.

Lemma contains_spec (sub s : string) :
  contains sub s = true ↔ ∃ pre post, s = pre +:+ sub +:+ post.
Proof.
  induction s as [| y s IH]; cbn [contains].
  - rewrite orb_false_r, prefix_spec. split.
    + intros [post H]. by exists "", post.
    + intros [pre [post H]]. destruct pre; [by exists post | discriminate H].
  - rewrite orb_true_iff, prefix_spec, IH. split.
    + intros [[post H] | [pre [post H]]].
      * by exists "", post.
      * exists (String y pre), post. by rewrite H.
    + intros [pre [post H]]. destruct pre as [| x pre].
      * left. by exists post.
      * right. injection H as -> ->. by exists pre, post.
Qed.






(** * Further properties *)

(** ** The lifecycle flag across calls *)

Section StatePost.
Context (Q : State → State → Prop) `{!PreOrder Q}.
#[local] Set Default Proof Using "Type*".

Lemma st_ret {A} (a : A) : state_post Q (ret a).
Proof. intros st. simpl. reflexivity. Qed.

Lemma st_raise {A} (e : Exn) : state_post Q (@raise_ A e).
Proof. intros st. simpl. reflexivity. Qed.

Lemma st_of_sum {A} (x : Exn + A) : state_post Q (of_sum x).
Proof. destruct x; [apply st_raise | apply st_ret]. Qed.

Lemma st_get_initialized : state_post Q get_initialized.
Proof. intros st. simpl. reflexivity. Qed.

Lemma st_which (c : string) : state_post Q (which c).
Proof. intros st. split; [done |]. intros x. simpl. reflexivity. Qed.

Lemma st_call {A} (ev : Event) (conv : answer ev → Exn + A) :
  state_post Q (λ st, Vis ev (λ x, of_sum (conv x) st)).
Proof. intros st. split; [done |]. intros x. apply st_of_sum. Qed.

Lemma st_bind {A B} (m : M A) (f : A → M B) :
  state_post Q m → (∀ a, state_post Q (f a)) → state_post Q (bind m f).
Proof.
  intros Hm Hf st. unfold bind. apply sat_pbind.
  eapply sat_mono; [| | apply (Hm st)]; [done |].
  intros [[a | e] st'] Hst; simpl in *; [| done].
  eapply sat_mono; [| | apply (Hf a st')]; [done |].
  intros r Hr. simpl in *. by etrans.
Qed.

Lemma st_try {A} (body : M A) (handler : Exn → M A) :
  state_post Q body → (∀ e, state_post Q (handler e)) →
  state_post Q (try_except body handler).
Proof.
  intros Hm Hh st. unfold try_except. apply sat_pbind.
  eapply sat_mono; [| | apply (Hm st)]; [done |].
  intros [[a | e] st'] Hst; simpl in *; [done |].
  eapply sat_mono; [| | apply (Hh e st')]; [done |].
  intros r Hr. simpl in *. by etrans.
Qed.

Lemma st_check_deps_loop (ds : list (string * string)) (results missing : list string) :
  state_post Q (check_deps_loop ds results missing).
Proof.
  revert results missing. induction ds as [| [cmd description] rest IH];
    intros results missing; simpl; [apply st_ret |].
  apply st_bind; [apply st_which |]. intros [].
  - apply st_bind; [| intros; apply IH].
    apply st_try; [| intros; apply st_ret].
    apply st_bind; [apply (st_call (Run _ _ _) id) | intros; apply st_ret].
  - apply IH.
Qed.

Lemma st_check_services_loop (svcs : list string) (status_info : list string) :
  state_post Q (check_services_loop svcs status_info).
Proof.
  revert status_info. induction svcs as [| service rest IH]; intros status_info; simpl;
    [apply st_ret |].
  apply st_bind; [| intros; apply IH].
  apply st_try; [| intros; apply st_ret].
  apply st_bind; [apply (st_call (Run _ _ _) id) | intros; apply st_ret].
Qed.

Lemma st_restart_all_loop (svcs : list string) (results : list string) :
  state_post Q (restart_all_loop svcs results).
Proof.
  revert results. induction svcs as [| svc rest IH]; intros results; simpl;
    [apply st_ret |].
  apply st_bind; [| intros; apply IH].
  apply st_try; [| intros; apply st_ret].
  apply st_bind; [apply (st_call (Run _ _ _) id) | intros; apply st_ret].
Qed.

Lemma st_report_key_files (files : list (string * string))
    (results : list string) :
  state_post Q (report_key_files files results).
Proof.
  revert results. induction files as [| [name path] rest IH]; intros results; simpl;
    [apply st_ret |].
  apply st_bind; [apply (st_call (PathExists _) id) | intros; apply IH].
Qed.

End StatePost.
#[local] Set Default Proof Using "Type".

(** Follow the program; only [set_initialized] is left to the caller. *)
Ltac st_step :=
  lazymatch goal with
  | |- PreOrder _ => apply _
  | |- ∀ _, _ => intros ?
  | |- state_post _ (bind _ _) => apply st_bind
  | |- state_post _ (try_except _ _) => apply st_try
  | |- state_post _ (ret _) => apply st_ret
  | |- state_post _ (raise_ _) => apply st_raise
  | |- state_post _ (of_sum _) => apply st_of_sum
  | |- state_post _ get_initialized => apply st_get_initialized
  | |- state_post _ (set_initialized _) => fail
  | |- state_post _ (which _) => apply st_which
  | |- state_post _ (check_deps_loop _ _ _) => apply st_check_deps_loop
  | |- state_post _ (check_services_loop _ _) => apply st_check_services_loop
  | |- state_post _ (restart_all_loop _ _) => apply st_restart_all_loop
  | |- state_post _ (report_key_files _ _) => apply st_report_key_files
  | |- state_post _ (path_exists _) => apply (st_call _ (PathExists _) id)
  | |- state_post _ (mkdir _) => apply (st_call _ (Mkdir _) id)
  | |- state_post _ (rmtree _) => apply (st_call _ (Rmtree _) id)
  | |- state_post _ (chmod _ _) => apply (st_call _ (Chmod _ _) id)
  | |- state_post _ (subprocess_run _ _ _) => apply (st_call _ (Run _ _ _) id)
  | |- state_post _ (read_file _) => apply (st_call _ (ReadFile _) id)
  | |- state_post _ (write_file _ _) => apply (st_call _ (WriteFile _ _) id)
  | |- state_post _ (http_post _ _) => apply (st_call _ (HttpPost _ _) id)
  | |- state_post _ (http_get _) => apply (st_call _ (HttpGet _) id)
  | |- state_post _ (if ?b then _ else _) => destruct b
  | |- state_post _ (match ?x with _ => _ end) => destruct x
  | |- state_post _ (let _ := _ in _) => lazy zeta
  | |- state_post _ ?m => let h := head_of m in unfold h
  end.

Ltac st_go := repeat st_step.

Global Instance flag_kept_preorder : PreOrder flag_kept.
Proof. split; [intros st; by unfold flag_kept | intros s1 s2 s3; unfold flag_kept; auto]. Qed.

Lemma st_set_true : state_post flag_kept (set_initialized true).
Proof. intros st. simpl. by unfold flag_kept. Qed.

(** The flag is process state that only initialization writes.  Whatever
    the tool, the arguments and the environment: a call of any tool other
    than [initialize_environment] ends in the state it started from, also
    when it raises; and no call at all, [initialize_environment] included,
    takes the flag from true back to false. *)
Theorem lifecycle_flag_invariant `{lib : PyLib} (o : Oracle) (n : string)
    (arguments : gmap string Value) (st : State) :
  (n ≠ "initialize_environment" → final (run o (call_tool n arguments) st) = st) ∧
  (initialized st = true →
   initialized (final (run o (call_tool n arguments) st)) = true).
Proof.
  split.
  - intros Hn.
    cut (state_post eq (call_tool n arguments)).
    { intros Hs. symmetry.
      apply (sat_exec any_event (λ r, st = r.2) o _ (Hs st) [] ltac:(constructor)). }
    unfold call_tool. rewrite bool_decide_eq_false_2 by done.
    st_go.
  - cut (state_post flag_kept (call_tool n arguments)).
    { intros Hs.
      apply (sat_exec any_event (λ r, flag_kept st r.2) o _ (Hs st) [] ltac:(constructor)). }
    unfold call_tool. st_go; apply st_set_true.
Qed.

Lemma lifecycle_flag_invariant_witness :
  "run_playbook" ≠ "initialize_environment" ∧
  initialized (mk_state true) = true ∧
  final (run (steady_oracle true true (failed_process 2 "unreachable") "")
           (@call_tool sample_lib "run_playbook" ∅) (mk_state true))
  = mk_state true ∧
  initialized
    (final (run (steady_oracle true true (failed_process 2 "unreachable") "")
              (@call_tool sample_lib "run_playbook" ∅) (mk_state true)))
  = true.
Proof.
  assert (Hn : "run_playbook" ≠ "initialize_environment") by done.
  pose proof (@lifecycle_flag_invariant sample_lib
                (steady_oracle true true (failed_process 2 "unreachable") "")
                "run_playbook" ∅ (mk_state true)) as [Hsame Hkept].
  split; [exact Hn |]. split; [reflexivity |].
  split; [exact (Hsame Hn) | exact (Hkept eq_refl)].
Defined.

(** ** Catalog and dispatcher *)

(** Reduce the chain of name tests of [call_tool] at a concrete name. *)
Ltac select_branch :=
  unfold call_tool;
  repeat (let Hc := fresh "Hc" in
          case_bool_decide as Hc;
          [try discriminate Hc | try (destruct Hc; reflexivity)]).

(** The defaults declared in the catalog are the defaults the dispatcher
    applies: for every tool and every property with a declared default,
    leaving the argument out is the same call as sending the declared
    default. *)
Theorem schema_defaults_agree `{lib : PyLib} (t : Tool) (p : Property) (v : Value)
    (arguments : gmap string Value) :
  t ∈ list_tools → p ∈ properties t → prop_default p = Some v →
  arguments !! prop_name p = None →
  call_tool (name t) arguments = call_tool (name t) (<[prop_name p := v]> arguments).
Proof.
  intros Ht Hp Hv Hnone. unfold list_tools in Ht.
  repeat (apply elem_of_cons in Ht as [-> | Ht]); [.. | by apply elem_of_nil in Ht];
    simpl in Hp;
    repeat (apply elem_of_cons in Hp as [-> | Hp]); try (by apply elem_of_nil in Hp);
    simpl in Hv; try discriminate Hv; injection Hv as <-; simpl in Hnone |- *;
    select_branch;
    unfold get_bool, get_str, get_int, item_str;
    rewrite ?lookup_insert_eq, ?Hnone; rewrite ?lookup_insert_ne by done;
    reflexivity.
Qed.

Lemma schema_defaults_agree_witness :
  ∃ t p,
    t ∈ list_tools ∧ name t = "view_logs" ∧ p ∈ properties t ∧ prop_name p = "lines" ∧
    prop_default p = Some (VInt 50) ∧
    ({[ "service" := VStr "nginx" ]} : gmap string Value) !! "lines" = None ∧
    @call_tool sample_lib "view_logs" {[ "service" := VStr "nginx" ]}
    = @call_tool sample_lib "view_logs"
        (<[ "lines" := VInt 50 ]> {[ "service" := VStr "nginx" ]}).
Proof.
  exists (mk_tool "view_logs" "View logs for a specific service"
            [mk_property "service" TString "Service name to view logs for" None
               (Some kv_services);
             mk_property "lines" TInteger "Number of log lines to retrieve"
               (Some (VInt 50)) None]
            ["service"]),
         (mk_property "lines" TInteger "Number of log lines to retrieve"
            (Some (VInt 50)) None).
  assert (Ht : mk_tool "view_logs" "View logs for a specific service"
                 [mk_property "service" TString "Service name to view logs for" None
                    (Some kv_services);
                  mk_property "lines" TInteger "Number of log lines to retrieve"
                    (Some (VInt 50)) None]
                 ["service"] ∈ list_tools).
  { unfold list_tools. do 9 (apply elem_of_cons; right). apply elem_of_cons. by left. }
  assert (Hp : mk_property "lines" TInteger "Number of log lines to retrieve"
                 (Some (VInt 50)) None
               ∈ [mk_property "service" TString "Service name to view logs for" None
                    (Some kv_services);
                  mk_property "lines" TInteger "Number of log lines to retrieve"
                    (Some (VInt 50)) None]).
  { apply elem_of_cons; right. apply elem_of_cons. by left. }
  split; [exact Ht |]. split; [reflexivity |]. split; [exact Hp |].
  split; [reflexivity |]. split; [reflexivity |]. split; [reflexivity |].
  exact (@schema_defaults_agree sample_lib _ _ (VInt 50)
           {[ "service" := VStr "nginx" ]} Ht Hp eq_refl eq_refl).
Defined.

Lemma exec_vis_nonempty {A} (o : Oracle) (ev : Event) (k : answer ev → Prog A) (x : A) :
  exec o [] (Vis ev k) ≠ ([], x).
Proof.
  simpl. intros Heq.
  destruct (exec_extends o (k (o [] ev)) [ev]) as [rest Hrest].
  rewrite Heq in Hrest. discriminate Hrest.
Qed.

(** Bring the running program to its first event or its result. *)
Ltac to_head :=
  lazymatch goal with
  | |- exec _ [] ?p ≠ _ =>
      let p' := eval hnf in p in change p with p'
  end.

Ltac head_differs :=
  to_head;
  lazymatch goal with
  | |- exec _ [] (Vis _ _) ≠ _ => apply exec_vis_nonempty
  | |- exec _ [] (Done _) ≠ _ => simpl; intros Heq; discriminate Heq
  end.

(** The dispatcher handles every name the catalog advertises: for a
    catalog name it never gives the answer it gives to unknown names (the
    "Unknown tool" text with no event issued), whatever the arguments, the
    state and the environment. *)
Theorem catalog_names_are_dispatched `{lib : PyLib} (o : Oracle) (n : string)
    (arguments : gmap string Value) (st : State) :
  n ∈ tool_names →
  run o (call_tool n arguments) st
  ≠ ([], (Returned [mk_text_content "text" ("Unknown tool: " +:+ n)], st)).
Proof.
  rewrite tool_names_eq. intros Hn. unfold run.
  repeat (apply elem_of_cons in Hn as [-> | Hn]); [.. | by apply elem_of_nil in Hn];
    select_branch;
    unfold get_str, get_int, item_str, ill_typed,
      _run_playbook, _quick_deploy, _docker_build, _view_config, _update_config,
      _restart_service;
    repeat match goal with
           | |- context [arguments !! ?k] => destruct (arguments !! k) as [[] |]
           end;
    destruct st as [[]];
    rewrite ?bind_ret_l;
    first [head_differs | case_bool_decide; head_differs].
Qed.

Lemma catalog_names_are_dispatched_witness :
  "install_dependencies" ∈ tool_names ∧
  run (steady_oracle true true (ok_process "") "")
    (@call_tool sample_lib "install_dependencies" ∅) (mk_state false)
  ≠ ([], (Returned [mk_text_content "text" "Unknown tool: install_dependencies"],
          mk_state false)).
Proof.
  assert (Hn : "install_dependencies" ∈ tool_names) by by_computation.
  split; [exact Hn |].
  exact (@catalog_names_are_dispatched sample_lib
           (steady_oracle true true (ok_process "") "") "install_dependencies" ∅
           (mk_state false) Hn).
Defined.

(** ** Initialization and the artifacts *)

(** A first initialization.  With the deployment directory absent, the
    call clones without removing anything, whatever [force] is; when the
    clone exits with code zero it reports the clone and the key files and
    ends with [initialized] true. *)
Theorem initialize_fresh_clone `{lib : PyLib} (o : Oracle) (h : list Event) (st : State)
    (force : bool) (r : Completed) (b1 b2 b3 b4 : bool) :
  o h (Mkdir WORK_DIR) = inr tt →
  o (h ++ [Mkdir WORK_DIR]) (PathExists ANSIBLE_DIR) = inr false →
  o (h ++ [Mkdir WORK_DIR; PathExists ANSIBLE_DIR]) (PathExists ANSIBLE_DIR) = inr false →
  o (h ++ [Mkdir WORK_DIR; PathExists ANSIBLE_DIR; PathExists ANSIBLE_DIR])
    (Run ["git"; "clone"; REPO_URL; ANSIBLE_DIR] None None) = inr r →
  returncode r = 0 →
  o (h ++ [Mkdir WORK_DIR; PathExists ANSIBLE_DIR; PathExists ANSIBLE_DIR;
           Run ["git"; "clone"; REPO_URL; ANSIBLE_DIR] None None])
    (PathExists PLAYBOOK_FILE) = inr b1 →
  o (h ++ [Mkdir WORK_DIR; PathExists ANSIBLE_DIR; PathExists ANSIBLE_DIR;
           Run ["git"; "clone"; REPO_URL; ANSIBLE_DIR] None None;
           PathExists PLAYBOOK_FILE])
    (PathExists INVENTORY_FILE) = inr b2 →
  o (h ++ [Mkdir WORK_DIR; PathExists ANSIBLE_DIR; PathExists ANSIBLE_DIR;
           Run ["git"; "clone"; REPO_URL; ANSIBLE_DIR] None None;
           PathExists PLAYBOOK_FILE; PathExists INVENTORY_FILE])
    (PathExists (path_join ANSIBLE_DIR "dockerfile")) = inr b3 →
  o (h ++ [Mkdir WORK_DIR; PathExists ANSIBLE_DIR; PathExists ANSIBLE_DIR;
           Run ["git"; "clone"; REPO_URL; ANSIBLE_DIR] None None;
           PathExists PLAYBOOK_FILE; PathExists INVENTORY_FILE;
           PathExists (path_join ANSIBLE_DIR "dockerfile")])
    (PathExists (path_join ANSIBLE_DIR "complete-startup.sh")) = inr b4 →
  exec o h (_initialize_environment force st)
  = (h ++ [Mkdir WORK_DIR; PathExists ANSIBLE_DIR; PathExists ANSIBLE_DIR;
           Run ["git"; "clone"; REPO_URL; ANSIBLE_DIR] None None;
           PathExists PLAYBOOK_FILE; PathExists INVENTORY_FILE;
           PathExists (path_join ANSIBLE_DIR "dockerfile");
           PathExists (path_join ANSIBLE_DIR "complete-startup.sh")],
     (Returned (join nl (("Successfully cloned repository to " +:+ ANSIBLE_DIR)
                         :: key_file_report [b1; b2; b3; b4])),
      mk_state true)).
Proof.
  intros H0 H1 H2 H3 Hrc H4 H5 H6 H7.
  unfold _initialize_environment, key_files.
  exec_step. rewrite H0. exec_step. rewrite H1. exec_step.
  rewrite H2. exec_step. rewrite H3. exec_step. rewrite Hrc. change (0 =? 0) with true. exec_step.
  rewrite H4. exec_step. rewrite H5. exec_step. rewrite H6. exec_step.
  rewrite H7. exec_step. reflexivity.
Qed.

Lemma initialize_fresh_clone_witness :
  steady_oracle false true (ok_process "Cloning into ...") "" []
    (PathExists (@ANSIBLE_DIR sample_lib)) = inr false ∧
  returncode (mk_completed 0 "Cloning into ..." "") = 0 ∧
  exec (steady_oracle false true (ok_process "Cloning into ...") "") []
    (@_initialize_environment sample_lib false (mk_state false))
  = ([Mkdir "/home/op/.resilientdb-mcp";
      PathExists "/home/op/.resilientdb-mcp/incubator-resilientdb-ansible";
      PathExists "/home/op/.resilientdb-mcp/incubator-resilientdb-ansible";
      Run ["git"; "clone"; "https://github.com/apache/incubator-resilientdb-ansible.git";
           "/home/op/.resilientdb-mcp/incubator-resilientdb-ansible"] None None;
      PathExists "/home/op/.resilientdb-mcp/incubator-resilientdb-ansible/site.yml";
      PathExists "/home/op/.resilientdb-mcp/incubator-resilientdb-ansible/inventories/production/hosts";
      PathExists "/home/op/.resilientdb-mcp/incubator-resilientdb-ansible/dockerfile";
      PathExists "/home/op/.resilientdb-mcp/incubator-resilientdb-ansible/complete-startup.sh"],
     (Returned (join nl
        ["Successfully cloned repository to /home/op/.resilientdb-mcp/incubator-resilientdb-ansible";
         "Playbook missing: /home/op/.resilientdb-mcp/incubator-resilientdb-ansible/site.yml";
         "Inventory missing: /home/op/.resilientdb-mcp/incubator-resilientdb-ansible/inventories/production/hosts";
         "Dockerfile missing: /home/op/.resilientdb-mcp/incubator-resilientdb-ansible/dockerfile";
         "Complete startup script missing: /home/op/.resilientdb-mcp/incubator-resilientdb-ansible/complete-startup.sh"]),
      mk_state true)).
Proof.
  split; [reflexivity |]. split; [reflexivity |].
  exact (@initialize_fresh_clone sample_lib
           (steady_oracle false true (ok_process "Cloning into ...") "") []
           (mk_state false) false (mk_completed 0 "Cloning into ..." "")
           false false false false
           eq_refl eq_refl eq_refl eq_refl eq_refl eq_refl eq_refl eq_refl eq_refl).
Defined.

(** A missing artifact stops an initialized handler at its existence
    test: [run_playbook], [quick_deploy], [docker_build] and [view_config]
    return their "not found" text naming the path, issue no other event
    (no process, no read) and leave the state alone. *)
Theorem missing_artifact_short_circuits `{lib : PyLib} (o : Oracle) (st : State) :
  initialized st = true →
  (∀ tags limit check,
     o [] (PathExists PLAYBOOK_FILE) = inr false →
     run o (_run_playbook tags limit check) st
     = ([PathExists PLAYBOOK_FILE],
        (Returned ("Playbook not found at " +:+ PLAYBOOK_FILE), st))) ∧
  (o [] (PathExists (path_join ANSIBLE_DIR "complete-startup.sh")) = inr false →
   run o _quick_deploy st
   = ([PathExists (path_join ANSIBLE_DIR "complete-startup.sh")],
      (Returned ("Startup script not found at " +:+
                 path_join ANSIBLE_DIR "complete-startup.sh"), st))) ∧
  (∀ tag,
     o [] (PathExists (path_join ANSIBLE_DIR "dockerfile")) = inr false →
     run o (_docker_build tag) st
     = ([PathExists (path_join ANSIBLE_DIR "dockerfile")],
        (Returned ("Dockerfile not found at " +:+ path_join ANSIBLE_DIR "dockerfile"),
         st))) ∧
  (∀ component,
     o [] (PathExists config_file) = inr false →
     run o (_view_config component) st
     = ([PathExists config_file],
        (Returned ("Configuration file not found at " +:+ config_file), st))).
Proof.
  intros Hst. repeat split; intros; unfold run;
    [unfold _run_playbook | unfold _quick_deploy | unfold _docker_build
     | unfold _view_config];
    exec_step; rewrite Hst; exec_step;
    match goal with H : o [] _ = _ |- _ => rewrite H end; reflexivity.
Qed.

Lemma missing_artifact_short_circuits_witness :
  initialized (mk_state true) = true ∧
  steady_oracle false true (ok_process "") "" [] (PathExists (@PLAYBOOK_FILE sample_lib))
  = inr false ∧
  run (steady_oracle false true (ok_process "") "")
    (@_run_playbook sample_lib "resilientdb" "all" false) (mk_state true)
  = ([PathExists "/home/op/.resilientdb-mcp/incubator-resilientdb-ansible/site.yml"],
     (Returned "Playbook not found at /home/op/.resilientdb-mcp/incubator-resilientdb-ansible/site.yml",
      mk_state true)).
Proof.
  split; [reflexivity |]. split; [reflexivity |].
  exact (proj1 (@missing_artifact_short_circuits sample_lib
                  (steady_oracle false true (ok_process "") "") (mk_state true) eq_refl)
           "resilientdb" "all" false eq_refl).
Defined.

(** ** Dependency report *)

Lemma filter_andb {A} (f g : A → bool) (l : list A) :
  List.filter (λ x, f x && g x) l = List.filter f (List.filter g l).
Proof.
  induction l as [| x l IH]; simpl; [done |].
  destruct (g x); simpl; destruct (f x); simpl; by rewrite ?IH.
Qed.

Lemma check_deps_loop_result (o : Oracle) (installed : string → bool)
    (ds : list (string * string)) :
  (∀ h c, o h (Which c) = installed c) →
  ∀ results missing h st,
    ∃ dep_lines,
      Forall2 (λ dep line, dependency_line (installed dep.1) dep line) ds dep_lines ∧
      (exec o h (check_deps_loop ds results missing st)).2
      = (Returned (results ++ dep_lines,
                   missing ++ List.filter
                                (λ c, negb (installed c) && bool_decide (c ∈ critical_deps))
                                ds.*1),
         st).
Proof.
  intros Hw. induction ds as [| [cmd description] rest IH]; intros results missing h st.
  - exists []. split; [constructor |]. simpl. by rewrite !app_nil_r.
  - cbn [check_deps_loop]. exec_step. rewrite Hw.
    destruct (installed cmd) eqn:Hcmd.
    + exec_step.
      destruct (o _ (Run _ _ _)) as [e | r]; exec_step.
      * destruct (IH (results ++ [cmd +:+ ": installed"]) missing
                    (h ++ [Which cmd;
                           Run (if bool_decide (cmd ≠ "netstat") then [cmd; "--version"]
                                else ["echo"; "installed"]) None (Some 5)]) st)
          as [dep_lines [Hlines Hexec]].
        exists ((cmd +:+ ": installed") :: dep_lines). split.
        -- constructor; [| done]. unfold dependency_line. simpl. rewrite Hcmd. by eexists.
        -- rewrite Hexec. cbn [fmap list_fmap List.filter fst]. rewrite Hcmd.
           cbn [negb andb]. by rewrite <- app_assoc.
      * destruct (IH (results ++ [cmd +:+ ": " +:+ strip (hd "" (lines (stdout r)))]) missing
                    (h ++ [Which cmd;
                           Run (if bool_decide (cmd ≠ "netstat") then [cmd; "--version"]
                                else ["echo"; "installed"]) None (Some 5)]) st)
          as [dep_lines [Hlines Hexec]].
        exists ((cmd +:+ ": " +:+ strip (hd "" (lines (stdout r)))) :: dep_lines). split.
        -- constructor; [| done]. unfold dependency_line. simpl. rewrite Hcmd. by eexists.
        -- rewrite Hexec. cbn [fmap list_fmap List.filter fst]. rewrite Hcmd.
           cbn [negb andb]. by rewrite <- app_assoc.
    + destruct (IH (results ++ [cmd +:+ ": NOT FOUND - " +:+ description])
                  (if bool_decide (cmd ∈ critical_deps) then missing ++ [cmd] else missing)
                  (h ++ [Which cmd]) st)
        as [dep_lines [Hlines Hexec]].
      exists ((cmd +:+ ": NOT FOUND - " +:+ description) :: dep_lines). split.
      * constructor; [| done]. unfold dependency_line. simpl. by rewrite Hcmd.
      * rewrite Hexec. cbn [fmap list_fmap List.filter fst]. rewrite Hcmd.
        cbn [negb andb]. destruct (bool_decide (cmd ∈ critical_deps));
          by rewrite <- ?app_assoc.
Qed.

(** The dependency report, where [which] answers the same for a command
    each time it is asked.  There is one line per dependency, in the order
    of the table: "<cmd>: <version>" (or "<cmd>: installed" when the probe
    fails) for a command that was found, "<cmd>: NOT FOUND - <description>"
    otherwise.  The closing lines name as missing exactly the critical
    commands (git, ansible, ansible-playbook, python3) that were not found,
    in that order; pip, docker and netstat never count as missing, and a
    failing version probe does not either. *)
Theorem dependency_report (o : Oracle) (st : State) (installed : string → bool) :
  (∀ h c, o h (Which c) = installed c) →
  ∃ dep_lines,
    Forall2 (λ dep line, dependency_line (installed dep.1) dep line) deps dep_lines ∧
    run o _check_dependencies st
    = (trace (run o _check_dependencies st),
       (Returned (join nl (dep_lines ++
                           dependency_summary
                             (List.filter (λ c, negb (installed c)) critical_deps))),
        st)).
Proof.
  intros Hw.
  destruct (check_deps_loop_result o installed deps Hw [] [] [] st)
    as [dep_lines [Hlines Hexec]].
  exists dep_lines. split; [exact Hlines |].
  unfold run, trace, _check_dependencies, bind. rewrite exec_pbind.
  destruct (exec o [] (check_deps_loop deps [] [] st)) as [h' x].
  cbn [snd] in Hexec. subst x. cbn [fst snd exec ret]. f_equal. f_equal. f_equal. f_equal.
  rewrite !app_nil_l, filter_andb.
  change (List.filter (λ c, bool_decide (c ∈ critical_deps)) deps.*1) with critical_deps.
  unfold dependency_summary.
  by destruct (List.filter _ critical_deps).
Qed.

Lemma dependency_report_witness :
  (∀ h c, steady_oracle true false (ok_process "") "" h (Which c) = false) ∧
  run (steady_oracle true false (ok_process "") "") _check_dependencies (mk_state false)
  = ([Which "git"; Which "ansible"; Which "ansible-playbook"; Which "python3";
      Which "pip"; Which "docker"; Which "netstat"],
     (Returned (join nl
        ["git: NOT FOUND - Version control for cloning repositories";
         "ansible: NOT FOUND - Configuration management tool";
         "ansible-playbook: NOT FOUND - Ansible playbook executor";
         "python3: NOT FOUND - Python interpreter";
         "pip: NOT FOUND - Python package manager";
         "docker: NOT FOUND - Container runtime (optional)";
         "netstat: NOT FOUND - Network diagnostics (optional)";
         nl +:+ "Missing critical dependencies: git, ansible, ansible-playbook, python3";
         "Run 'install_dependencies' to attempt automatic installation"]),
      mk_state false)).
Proof.
  assert (Hw : ∀ h c, steady_oracle true false (ok_process "") "" h (Which c) = false)
    by reflexivity.
  split; [exact Hw |].
  destruct (dependency_report (steady_oracle true false (ok_process "") "")
              (mk_state false) (λ _, false) Hw) as [dep_lines [_ Hrun]].
  reflexivity.
Defined.

(** ** Playbook failures and the summary *)









Lemma split_nonempty (sep : ascii) (s : string) : split sep s ≠ [].
Proof.
  destruct s as [| c s]; simpl; [done |].
  destruct (Ascii.eqb c sep); [done |]. by destruct (split sep s).
Qed.

Lemma split_no_sep (sep : ascii) (s l pre post : string) :
  l ∈ split sep s → l ≠ pre +:+ String sep post.
Proof.
  revert l pre. induction s as [| c s IH]; intros l pre; simpl.
  - intros ->%list_elem_of_singleton. by destruct pre.
  - destruct (Ascii.eqb c sep) eqn:Hc.
    + intros [-> | Hl]%elem_of_cons; [by destruct pre | by apply IH].
    + destruct (split sep s) as [| w ws] eqn:Hs; [by destruct (split_nonempty sep s) |].
      intros [-> | Hl]%elem_of_cons.
      * destruct pre as [| x pre]; intros Heq; injection Heq as ? Hw.
        -- subst c. by rewrite Ascii.eqb_refl in Hc.
        -- apply (IH w pre); [by left | done].
      * apply IH. by right.
Qed.

Lemma lines_not_header (out l : string) : l ∈ lines out → l ≠ summary_header.
Proof. intros Hl. apply (split_no_sep _ out l "" "=== DEPLOYMENT SUMMARY ==="), Hl. Qed.

(** What the summary can hold, for an output text [out].  With no line
    containing "PLAY RECAP" the summary is empty.  In general every entry
    of the summary is the header or a line of the output that is not blank
    and does not contain the marker, and the summary has exactly one
    header per marker line. *)
Theorem recap_summary_sound (out : string) :
  ((∀ l, l ∈ lines out → is_marker l = false) → recap_summary (lines out) = []) ∧
  (∀ e, e ∈ recap_summary (lines out) →
        e = summary_header ∨
        (e ∈ lines out ∧ nonblank e = true ∧ is_marker e = false)) ∧
  length (List.filter (λ e, String.eqb e summary_header) (recap_summary (lines out)))
  = length (List.filter is_marker (lines out)).
Proof.
  pose proof (lines_not_header out) as Hnh. revert Hnh.
  generalize (lines out). intros ls Hnh.
  rewrite recap_summary_entries. split; [| split].
  - clear Hnh. induction ls as [| l rest IH]; intros Hno; cbn [from_first_marker]; [done |].
    rewrite (Hno l) by (by left). apply IH. intros l' Hl'. apply Hno. by right.
  - intros e He.
    assert (Hsub : ∀ x, x ∈ from_first_marker ls → x ∈ ls).
    { clear. induction ls as [| l rest IH]; cbn [from_first_marker]; [done |].
      intros x. destruct (is_marker l); [done |]. intros Hx. right. by apply IH. }
    apply list_elem_of_In, in_flat_map in He as [l [Hl He]].
    apply list_elem_of_In, Hsub in Hl. unfold summary_entries in He.
    destruct (is_marker l) eqn:Hm.
    + left. destruct He as [<- | []]. reflexivity.
    + destruct (nonblank l) eqn:Hb; [| done]. destruct He as [<- | []]. by right.
  - induction ls as [| l rest IH]; cbn [from_first_marker List.filter]; [done |].
    destruct (is_marker l) eqn:Hm.
    2:{ apply IH. intros x Hx. apply Hnh. by right. }
    clear IH.
    cut (∀ xs, (∀ x, x ∈ xs → x ≠ summary_header) →
               length (List.filter (λ e, String.eqb e summary_header)
                         (flat_map summary_entries xs))
               = length (List.filter is_marker xs)).
    { intros H. rewrite (H (l :: rest) Hnh). cbn [List.filter]. by rewrite Hm. }
    clear. induction xs as [| x xs IHx]; intros Hnh; [done |].
    cbn [flat_map List.filter]. rewrite List.filter_app, length_app, IHx.
    2:{ intros y Hy. apply Hnh. by right. }
    unfold summary_entries. destruct (is_marker x) eqn:Hx.
    + reflexivity.
    + destruct (nonblank x) eqn:Hb; [| reflexivity].
      cbn [List.filter]. destruct (String.eqb x summary_header) eqn:Heq; [| reflexivity].
      apply String.eqb_eq in Heq. destruct (Hnh x); [by left | done].
Qed.

Lemma recap_summary_sound_witness :
  (∀ l, l ∈ lines ("TASK [setup]" +:+ nl +:+ "ok: [localhost]") → is_marker l = false) ∧
  recap_summary (lines ("TASK [setup]" +:+ nl +:+ "ok: [localhost]")) = [].
Proof.
  assert (H : ∀ l, l ∈ lines ("TASK [setup]" +:+ nl +:+ "ok: [localhost]") →
                   is_marker l = false).
  { intros l Hl. vm_compute in Hl.
    repeat (apply elem_of_cons in Hl as [-> | Hl]); try reflexivity.
    by apply elem_of_nil in Hl. }
  split; [exact H |].
  exact (proj1 (recap_summary_sound ("TASK [setup]" +:+ nl +:+ "ok: [localhost]")) H).
Defined.

(** ** Service management *)

Lemma restart_all_loop_exec (o : Oracle) (svcs : list string) :
  ∀ results h st,
    (exec o h (restart_all_loop svcs results st)).1
    = h ++ map (λ svc, Run ["systemctl"; "restart"; svc] None None) svcs ∧
    ∀ ans : string → Exn + Completed,
      (∀ h' svc, o h' (Run ["systemctl"; "restart"; svc] None None) = ans svc) →
      (exec o h (restart_all_loop svcs results st)).2
      = (Returned (results ++ map (λ svc, restart_line svc (ans svc)) svcs), st).
Proof.
  induction svcs as [| svc rest IH]; intros results h st.
  - simpl. rewrite !app_nil_r. split; [reflexivity | intros; reflexivity].
  - cbn [restart_all_loop map]. exec_step.
    destruct (o h (Run ["systemctl"; "restart"; svc] None None)) as [e | r] eqn:Ho;
      exec_step.
    + destruct (IH (results ++ ["Failed to restart " +:+ svc])
                  (h ++ [Run ["systemctl"; "restart"; svc] None None]) st) as [Ht Hr].
      split.
      * rewrite Ht, <- app_assoc. reflexivity.
      * intros ans Hans. rewrite (Hr ans Hans), <- app_assoc.
        rewrite <- (Hans h svc), Ho. reflexivity.
    + destruct (IH (results ++ ["Restarted " +:+ svc])
                  (h ++ [Run ["systemctl"; "restart"; svc] None None]) st) as [Ht Hr].
      split.
      * rewrite Ht, <- app_assoc. reflexivity.
      * intros ans Hans. rewrite (Hr ans Hans), <- app_assoc.
        rewrite <- (Hans h svc), Ho. reflexivity.
Qed.

(** Restarting "all".  Whatever the environment answers, the handler runs
    [systemctl restart] once for each of the eight services, in the fixed
    order, and nothing else: a failure does not stop the loop.  Where the
    answer depends only on the service, the text has one line per service:
    "Restarted <svc>" whenever the process ran, whatever its exit code,
    and "Failed to restart <svc>" only when the call itself raised. *)
Theorem restart_all_services (o : Oracle) (st : State) :
  trace (run o (_restart_service "all") st)
  = map (λ svc, Run ["systemctl"; "restart"; svc] None None) services ∧
  ∀ ans : string → Exn + Completed,
    (∀ h svc, o h (Run ["systemctl"; "restart"; svc] None None) = ans svc) →
    outcome (run o (_restart_service "all") st)
    = Returned (join nl (map (λ svc, restart_line svc (ans svc)) services)) ∧
    final (run o (_restart_service "all") st) = st.
Proof.
  destruct (restart_all_loop_exec o services [] [] st) as [Ht Hr].
  unfold run, trace, outcome, final, _restart_service.
  rewrite bool_decide_eq_true_2 by done. unfold bind. rewrite exec_pbind.
  split.
  - destruct (exec o [] (restart_all_loop services [] st)) as [h' [[a | e] st']];
      simpl in *; by rewrite Ht.
  - intros ans Hans. rewrite (Hr ans Hans). simpl. done.
Qed.

Lemma restart_all_services_witness :
  (∀ h svc, steady_oracle true true (failed_process 5 "Unit not found") "" h
              (Run ["systemctl"; "restart"; svc] None None)
            = failed_process 5 "Unit not found") ∧
  outcome (run (steady_oracle true true (failed_process 5 "Unit not found") "")
             (_restart_service "all") (mk_state false))
  = Returned (join nl ["Restarted nginx"; "Restarted crow-http"; "Restarted graphql";
                       "Restarted resilientdb-client"; "Restarted resilientdb-kv@1";
                       "Restarted resilientdb-kv@2"; "Restarted resilientdb-kv@3";
                       "Restarted resilientdb-kv@4"]).
Proof.
  assert (Hans : ∀ h svc, steady_oracle true true (failed_process 5 "Unit not found") "" h
                            (Run ["systemctl"; "restart"; svc] None None)
                          = failed_process 5 "Unit not found") by reflexivity.
  split; [exact Hans |].
  exact (proj1 (proj2 (restart_all_services
                         (steady_oracle true true (failed_process 5 "Unit not found") "")
                         (mk_state false))
                  (λ _, failed_process 5 "Unit not found") Hans)).
Defined.

(** Restarting one service, by contrast, looks at the exit code: one
    [systemctl restart] call, "Service <svc> restarted successfully" on
    code zero, "Error restarting <svc>: <stderr>" on any other code, and
    "Error restarting service: <message>" when the call raises. *)
Theorem restart_one_service (o : Oracle) (st : State) (service : string) :
  service ≠ "all" →
  run o (_restart_service service) st
  = ([Run ["systemctl"; "restart"; service] None None],
     (Returned
        match o [] (Run ["systemctl"; "restart"; service] None None) with
        | inr r =>
            if returncode r =? 0
            then "Service " +:+ service +:+ " restarted successfully"
            else "Error restarting " +:+ service +:+ ": " +:+ stderr r
        | inl e => "Error restarting service: " +:+ exn_msg e
        end,
      st)).
Proof.
  intros Hs. unfold run, _restart_service. rewrite bool_decide_eq_false_2 by done.
  exec_step.
  destruct (o [] (Run ["systemctl"; "restart"; service] None None)) as [e | r];
    exec_step; [reflexivity |].
  destruct (returncode r =? 0); reflexivity.
Qed.

Lemma restart_one_service_witness :
  "nginx" ≠ "all" ∧
  run (steady_oracle true true (failed_process 5 "Unit not found") "")
    (_restart_service "nginx") (mk_state false)
  = ([Run ["systemctl"; "restart"; "nginx"] None None],
     (Returned "Error restarting nginx: Unit not found", mk_state false)).
Proof.
  assert (Hn : "nginx" ≠ "all") by done.
  split; [exact Hn |].
  exact (restart_one_service
           (steady_oracle true true (failed_process 5 "Unit not found") "")
           (mk_state false) "nginx" Hn).
Defined.




(** ** Port listing *)

Lemma port_filter_spec (line : string) :
  existsb (λ port, contains (":" +:+ port) line) relevant_ports = true ↔ mentions_port line.
Proof.
  unfold mentions_port. rewrite existsb_exists. split.
  - intros [port [Hin [pre [post Hline]]%contains_spec]].
    exists port, pre, post. split; [by apply list_elem_of_In |].
    rewrite Hline. by rewrite string_app_assoc.
  - intros [port [pre [post [Hin Hline]]]]. exists port.
    split; [by apply list_elem_of_In |]. apply contains_spec.
    exists pre, post. rewrite Hline. by rewrite string_app_assoc.
Qed.

(** The port listing.  [netstat -tlnp] is always run first, and [ss -tlnp]
    is run after it exactly when [netstat] could not be found.  When
    [netstat] completes, whatever its exit code, the listing keeps, in
    their order, exactly the lines of its output that name one of the
    relevant ports after a colon (as a substring, so ":80" also keeps a
    line for ":8080"); with no such line the text says so.  The output of
    [ss] is passed on unfiltered. *)
Theorem port_listing (o : Oracle) (st : State) :
  trace (run o _check_ports st)
  = Run ["netstat"; "-tlnp"] None None ::
    match o [] (Run ["netstat"; "-tlnp"] None None) with
    | inl e =>
        match exn_class e with
        | FileNotFoundError => [Run ["ss"; "-tlnp"] None None]
        | _ => []
        end
    | inr _ => []
    end ∧
  (∀ r, o [] (Run ["netstat"; "-tlnp"] None None) = inr r →
        ∃ kept,
          (∀ line, line ∈ kept ↔ line ∈ lines (stdout r) ∧ mentions_port line) ∧
          (∃ dropped_from, kept = List.filter dropped_from (lines (stdout r))) ∧
          outcome (run o _check_ports st)
          = Returned match kept with
                     | [] => "No ResilientDB-related ports found listening"
                     | _ :: _ => "Listening ports:" +:+ nl +:+ join nl kept
                     end) ∧
  (∀ e r, o [] (Run ["netstat"; "-tlnp"] None None) = inl e →
          exn_class e = FileNotFoundError →
          o [Run ["netstat"; "-tlnp"] None None] (Run ["ss"; "-tlnp"] None None) = inr r →
          outcome (run o _check_ports st)
          = Returned ("Listening sockets:" +:+ nl +:+ stdout r)).
Proof.
  unfold run, trace, outcome, _check_ports. split; [| split].
  - exec_step. destruct (o [] (Run ["netstat"; "-tlnp"] None None)) as [e | r]; exec_step.
    + destruct (exn_class e); exec_step; try reflexivity.
      destruct (o _ (Run ["ss"; "-tlnp"] None None)); reflexivity.
    + by destruct (List.filter _ _).
  - intros r Hr.
    exists (List.filter (λ line, existsb (λ port, contains (":" +:+ port) line) relevant_ports)
              (lines (stdout r))).
    split; [| split].
    + intros line. rewrite list_elem_of_In, filter_In, <- list_elem_of_In.
      by rewrite port_filter_spec.
    + by eexists.
    + exec_step. rewrite Hr. exec_step. by destruct (List.filter _ _).
  - intros e r He Hc Hss. exec_step. rewrite He. exec_step. rewrite Hc. exec_step.
    rewrite Hss. reflexivity.
Qed.

Lemma port_listing_witness :
  steady_oracle true true
    (ok_process ("tcp 0 0 0.0.0.0:8080 LISTEN" +:+ nl +:+ "tcp 0 0 0.0.0.0:22 LISTEN")) ""
    [] (Run ["netstat"; "-tlnp"] None None)
  = inr (mk_completed 0 ("tcp 0 0 0.0.0.0:8080 LISTEN" +:+ nl +:+
                         "tcp 0 0 0.0.0.0:22 LISTEN") "") ∧
  ∃ kept,
    (kept = ["tcp 0 0 0.0.0.0:8080 LISTEN"]) ∧
    outcome (run (steady_oracle true true
                    (ok_process ("tcp 0 0 0.0.0.0:8080 LISTEN" +:+ nl +:+
                                 "tcp 0 0 0.0.0.0:22 LISTEN")) "")
               _check_ports (mk_state false))
    = Returned match kept with
               | [] => "No ResilientDB-related ports found listening"
               | _ :: _ => "Listening ports:" +:+ nl +:+ join nl kept
               end.
Proof.
  split; [reflexivity |].
  destruct (proj1 (proj2 (port_listing
              (steady_oracle true true
                 (ok_process ("tcp 0 0 0.0.0.0:8080 LISTEN" +:+ nl +:+
                              "tcp 0 0 0.0.0.0:22 LISTEN")) "")
              (mk_state false)))
              (mk_completed 0 ("tcp 0 0 0.0.0.0:8080 LISTEN" +:+ nl +:+
                               "tcp 0 0 0.0.0.0:22 LISTEN") "") eq_refl)
    as [kept [_ [_ Hout]]].
  exists ["tcp 0 0 0.0.0.0:8080 LISTEN"]. split; [reflexivity |]. reflexivity.
Defined.

(** ** Configuration: what is written, and reading it back *)










(** ** Numerals as configuration values *)






(** ** The HTTP relay *)

Ltac exec_http :=
  cbn [exec pbind bind try_except ret raise_ of_sum http_post http_get fst snd app].

(** Each relay handler sends exactly one request, whatever the answer:
    nothing is retried.  [commit_transaction] posts the id and the value
    to the commit endpoint and, when a response with a body arrives,
    reports "Transaction committed" with whatever status the response
    has: the status code is shown, not interpreted.  [get_transaction]
    appends the id as given to the transactions endpoint.  A request that
    raises becomes the handler's error text. *)
Theorem http_relay (o : Oracle) (st : State) :
  (∀ transaction_id value,
     run o (_commit_transaction transaction_id value) st
     = ([HttpPost "http://localhost:18000/v1/transactions/commit"
           (VDict {[ "id" := VStr transaction_id; "value" := VStr value ]})],
        (Returned
           match o [] (HttpPost "http://localhost:18000/v1/transactions/commit"
                         (VDict {[ "id" := VStr transaction_id; "value" := VStr value ]}))
           with
           | inr response =>
               match resp_text response with
               | inr body =>
                   "Transaction committed (status " +:+ pretty (status response) +:+ "):" +:+
                   nl +:+ body
               | inl e => "Error committing transaction: " +:+ exn_msg e
               end
           | inl e => "Error committing transaction: " +:+ exn_msg e
           end,
         st))) ∧
  (∀ transaction_id,
     run o (_get_transaction transaction_id) st
     = ([HttpGet ("http://localhost:18000/v1/transactions/" +:+ transaction_id)],
        (Returned
           match o [] (HttpGet ("http://localhost:18000/v1/transactions/" +:+ transaction_id))
           with
           | inr response =>
               match resp_text response with
               | inr body =>
                   "Transaction data (status " +:+ pretty (status response) +:+ "):" +:+
                   nl +:+ body
               | inl e => "Error fetching transaction: " +:+ exn_msg e
               end
           | inl e => "Error fetching transaction: " +:+ exn_msg e
           end,
         st))) ∧
  (∀ `{lib : PyLib} query variables,
     run o (_graphql_query query variables) st
     = ([HttpPost "http://localhost:8000/graphql"
           (VDict {[ "query" := VStr query; "variables" := variables ]})],
        (Returned
           match o [] (HttpPost "http://localhost:8000/graphql"
                         (VDict {[ "query" := VStr query; "variables" := variables ]}))
           with
           | inr response =>
               match resp_json response with
               | inr result => "GraphQL Response:" +:+ nl +:+ json_dumps result
               | inl e => "Error executing GraphQL query: " +:+ exn_msg e
               end
           | inl e => "Error executing GraphQL query: " +:+ exn_msg e
           end,
         st))).
Proof.
  split; [| split].
  - intros transaction_id value. unfold run, _commit_transaction.
    change (CROW_BASE_URL +:+ "/v1/transactions/commit")
      with "http://localhost:18000/v1/transactions/commit".
    exec_http.
    destruct (o [] _) as [e | response]; exec_http; [reflexivity |].
    destruct (resp_text response); reflexivity.
  - intros transaction_id. unfold run, _get_transaction.
    change (CROW_BASE_URL +:+ "/v1/transactions/" +:+ transaction_id)
      with ("http://localhost:18000/v1/transactions/" +:+ transaction_id).
    exec_http.
    destruct (o [] _) as [e | response]; exec_http; [reflexivity |].
    destruct (resp_text response); reflexivity.
  - intros lib query variables. unfold run, _graphql_query.
    change GRAPHQL_URL with "http://localhost:8000/graphql".
    exec_http.
    destruct (o [] _) as [e | response]; exec_http; [reflexivity |].
    destruct (resp_json response); reflexivity.
Qed.

(** ** Quick deployment *)



(** ** Running the container *)





(** ** The gate opens *)

(** A fresh environment, step by step.  Starting uninitialized with no
    deployment directory, [initialize_environment] clones (exit code
    zero) and finds no playbook; a following [run_playbook] is then past
    the gate: it tests for the playbook, returns "Playbook not found at
    <path>" and does not start the runner.  Before the initialization the
    same call is answered by the block message without any event. *)
Theorem initialize_then_run_playbook `{lib : PyLib} (o : Oracle) (force : bool)
    (r : Completed) (b2 b3 b4 : bool) (tags limit : string) (check : bool) :
  o [] (Mkdir WORK_DIR) = inr tt →
  o [Mkdir WORK_DIR] (PathExists ANSIBLE_DIR) = inr false →
  o [Mkdir WORK_DIR; PathExists ANSIBLE_DIR] (PathExists ANSIBLE_DIR) = inr false →
  o [Mkdir WORK_DIR; PathExists ANSIBLE_DIR; PathExists ANSIBLE_DIR]
    (Run ["git"; "clone"; REPO_URL; ANSIBLE_DIR] None None) = inr r →
  returncode r = 0 →
  o [Mkdir WORK_DIR; PathExists ANSIBLE_DIR; PathExists ANSIBLE_DIR;
     Run ["git"; "clone"; REPO_URL; ANSIBLE_DIR] None None]
    (PathExists PLAYBOOK_FILE) = inr false →
  o [Mkdir WORK_DIR; PathExists ANSIBLE_DIR; PathExists ANSIBLE_DIR;
     Run ["git"; "clone"; REPO_URL; ANSIBLE_DIR] None None;
     PathExists PLAYBOOK_FILE]
    (PathExists INVENTORY_FILE) = inr b2 →
  o [Mkdir WORK_DIR; PathExists ANSIBLE_DIR; PathExists ANSIBLE_DIR;
     Run ["git"; "clone"; REPO_URL; ANSIBLE_DIR] None None;
     PathExists PLAYBOOK_FILE; PathExists INVENTORY_FILE]
    (PathExists (path_join ANSIBLE_DIR "dockerfile")) = inr b3 →
  o [Mkdir WORK_DIR; PathExists ANSIBLE_DIR; PathExists ANSIBLE_DIR;
     Run ["git"; "clone"; REPO_URL; ANSIBLE_DIR] None None;
     PathExists PLAYBOOK_FILE; PathExists INVENTORY_FILE;
     PathExists (path_join ANSIBLE_DIR "dockerfile")]
    (PathExists (path_join ANSIBLE_DIR "complete-startup.sh")) = inr b4 →
  o [Mkdir WORK_DIR; PathExists ANSIBLE_DIR; PathExists ANSIBLE_DIR;
     Run ["git"; "clone"; REPO_URL; ANSIBLE_DIR] None None;
     PathExists PLAYBOOK_FILE; PathExists INVENTORY_FILE;
     PathExists (path_join ANSIBLE_DIR "dockerfile");
     PathExists (path_join ANSIBLE_DIR "complete-startup.sh")]
    (PathExists PLAYBOOK_FILE) = inr false →
  run o (_run_playbook tags limit check) (mk_state false)
  = ([], (Returned not_initialized_message, mk_state false)) ∧
  exec o (trace (run o (_initialize_environment force) (mk_state false)))
    (_run_playbook tags limit check
       (final (run o (_initialize_environment force) (mk_state false))))
  = ([Mkdir WORK_DIR; PathExists ANSIBLE_DIR; PathExists ANSIBLE_DIR;
      Run ["git"; "clone"; REPO_URL; ANSIBLE_DIR] None None;
      PathExists PLAYBOOK_FILE; PathExists INVENTORY_FILE;
      PathExists (path_join ANSIBLE_DIR "dockerfile");
      PathExists (path_join ANSIBLE_DIR "complete-startup.sh");
      PathExists PLAYBOOK_FILE],
     (Returned ("Playbook not found at " +:+ PLAYBOOK_FILE), mk_state true)).
Proof.
  intros H0 H1 H2 H3 Hrc H4 H5 H6 H7 H8. split; [reflexivity |].
  assert (Hinit : run o (_initialize_environment force) (mk_state false)
                  = ([Mkdir WORK_DIR; PathExists ANSIBLE_DIR; PathExists ANSIBLE_DIR;
                      Run ["git"; "clone"; REPO_URL; ANSIBLE_DIR] None None;
                      PathExists PLAYBOOK_FILE; PathExists INVENTORY_FILE;
                      PathExists (path_join ANSIBLE_DIR "dockerfile");
                      PathExists (path_join ANSIBLE_DIR "complete-startup.sh")],
                     (Returned (join nl (("Successfully cloned repository to " +:+ ANSIBLE_DIR)
                                         :: key_file_report [false; b2; b3; b4])),
                      mk_state true))).
  { unfold run, _initialize_environment, key_files.
    exec_step. rewrite H0. exec_step. rewrite H1. exec_step.
    rewrite H2. exec_step. rewrite H3. exec_step. rewrite Hrc.
    change (0 =? 0) with true. exec_step.
    rewrite H4. exec_step. rewrite H5. exec_step. rewrite H6. exec_step.
    rewrite H7. exec_step. reflexivity. }
  rewrite Hinit. unfold trace, final, _run_playbook. cbn [fst snd].
  exec_step. cbn [initialized negb]. exec_step. rewrite H8. reflexivity.
Qed.

Lemma initialize_then_run_playbook_witness :
  steady_oracle false true (ok_process "") "" [] (Mkdir (@WORK_DIR sample_lib)) = inr tt ∧
  returncode (mk_completed 0 "" "") = 0 ∧
  (exec (steady_oracle false true (ok_process "") "")
     (trace (run (steady_oracle false true (ok_process "") "")
               (@_initialize_environment sample_lib false) (mk_state false)))
     (@_run_playbook sample_lib "resilientdb" "all" false
        (final (run (steady_oracle false true (ok_process "") "")
                  (@_initialize_environment sample_lib false) (mk_state false))))).2
  = (Returned "Playbook not found at /home/op/.resilientdb-mcp/incubator-resilientdb-ansible/site.yml",
     mk_state true).
Proof.
  split; [reflexivity |]. split; [reflexivity |].
  rewrite (proj2 (@initialize_then_run_playbook sample_lib
             (steady_oracle false true (ok_process "") "") false
             (mk_completed 0 "" "") false false false "resilientdb" "all" false
             eq_refl eq_refl eq_refl eq_refl eq_refl eq_refl eq_refl eq_refl eq_refl
             eq_refl)).
  reflexivity.
Defined.
